(** * vupysolr.docs: accessors over Solr stored VuFind records

    A shallow embedding of [src/vupysolr/docs.py] (the classes
    [VuFindParser] and [VuFindMarcParser]) together with the properties of
    the accessor contract.

    The program is dynamically typed, so the embedding works over a type
    [pyval] of Python values and a [result] type that records the exception
    an operation raises.  The two date libraries the module imports
    ([datetime] and [dateutil.parser]) are not part of the repository; they
    enter as the interface [DateLib]. *)

From stdpp Require Import gmap strings list fin_maps sorting.
From Stdlib Require Import ZArith Ascii.

Set Warnings "-register-all".
Local Open Scope string_scope.
Local Open Scope Z_scope.

(* ================================================================== *)
(** ** Python values *)

(** [datetime.date] and [datetime.datetime] objects.  [utcoffset] is the
    offset of an aware datetime in seconds, [None] for a naive one. *)
Record date := mkdate { year : Z; month : Z; day : Z }.

Record datetime := mkdatetime {
  dt_date : date;
  hour : Z;
  minute : Z;
  second : Z;
  microsecond : Z;
  utcoffset : option Z
}.

(** The values a decoded Solr document is made of, plus the two date
    types the accessors produce.  Text is a sequence of code points below
    256, one [ascii] each.  Dictionary keys are text, as in a decoded JSON
    object; [PDictSub cls m] is an instance of a subclass [cls] of [dict]
    (for instance [collections.OrderedDict]): it looks up keys like a
    [dict] but its [type] is not [dict]. *)
Inductive pyval :=
| PNone
| PBool (b : bool)
| PInt (z : Z)
| PStr (s : string)
| PList (l : list pyval)
| PDict (m : gmap string pyval)
| PDictSub (cls : string) (m : gmap string pyval)
| PDate (d : date)
| PDateTime (dt : datetime).

(** The result of [type(x)]. *)
Inductive pytype :=
| TNoneType | TBool | TInt | TStr | TList | TDict
| TSubclass (cls : string)
| TDate | TDateTime.

#[global] Instance pytype_eq_dec : EqDecision pytype.
Proof. solve_decision. Defined.

Definition type (v : pyval) : pytype :=
  match v with
  | PNone => TNoneType
  | PBool _ => TBool
  | PInt _ => TInt
  | PStr _ => TStr
  | PList _ => TList
  | PDict _ => TDict
  | PDictSub cls _ => TSubclass cls
  | PDate _ => TDate
  | PDateTime _ => TDateTime
  end.

(** ** Exceptions and the error monad *)

Inductive exn :=
| TypeError | ValueError | AttributeError | KeyError | IndexError.

Inductive result (A : Type) :=
| Ok (a : A)
| Raise (e : exn).
Arguments Ok {A} a.
Arguments Raise {A} e.

#[global] Instance result_ret : MRet result := @Ok.
#[global] Instance result_bind : MBind result :=
  λ A B f r, match r with Ok a => f a | Raise e => Raise e end.
#[global] Instance result_fmap : FMap result :=
  λ A B f r, match r with Ok a => Ok (f a) | Raise e => Raise e end.

(** [try: body / except ValueError: handler]. *)
Definition try_except_ValueError {A} (body handler : result A) : result A :=
  match body with
  | Raise ValueError => handler
  | r => r
  end.

(* ================================================================== *)
(** ** Built-in operations used by the module *)

(** [x is None] *)
Definition is_none (v : pyval) : bool :=
  match v with PNone => true | _ => false end.

(** Truth value of an object, as tested by [if x:] and [and]. *)
Definition truthy (v : pyval) : bool :=
  match v with
  | PNone => false
  | PBool b => b
  | PInt z => negb (z =? 0)
  | PStr s => negb (String.eqb s "")
  | PList l => match l with [] => false | _ => true end
  | PDict m | PDictSub _ m => negb (bool_decide (m = ∅))
  | PDate _ | PDateTime _ => true
  end.

(** Substring test, [needle in hay] on two [str]. *)
Fixpoint str_contains (needle hay : string) : bool :=
  String.prefix needle hay ||
  match hay with
  | EmptyString => false
  | String _ hay' => str_contains needle hay'
  end.

(** [needle == v] for a [str] needle. *)
Definition eq_str (needle : string) (v : pyval) : bool :=
  match v with PStr s => String.eqb needle s | _ => false end.

(** [key in v] for a [str] key: key membership on a mapping, substring
    test on text, element test on a list, [TypeError] on anything that is
    not a container. *)
Definition py_contains (key : string) (v : pyval) : result bool :=
  match v with
  | PDict m | PDictSub _ m => Ok (bool_decide (is_Some (m !! key)))
  | PStr s => Ok (str_contains key s)
  | PList l => Ok (existsb (eq_str key) l)
  | PNone | PBool _ | PInt _ | PDate _ | PDateTime _ => Raise TypeError
  end.

(** [v[key]] for a [str] key. *)
Definition py_getitem (v : pyval) (key : string) : result pyval :=
  match v with
  | PDict m | PDictSub _ m =>
      match m !! key with Some x => Ok x | None => Raise KeyError end
  | _ => Raise TypeError
  end.

(** [v[0]]. *)
Definition py_getitem0 (v : pyval) : result pyval :=
  match v with
  | PStr s =>
      match s with
      | EmptyString => Raise IndexError
      | String c _ => Ok (PStr (String c EmptyString))
      end
  | PList l => match l with [] => Raise IndexError | x :: _ => Ok x end
  | PDict _ | PDictSub _ _ => Raise KeyError
  | _ => Raise TypeError
  end.

(** The first [n] characters of a text, fewer when the text is shorter. *)
Fixpoint str_take (n : nat) (s : string) : string :=
  match n, s with
  | S n', String c s' => String c (str_take n' s')
  | _, _ => EmptyString
  end.

(** [iter(v)] run to the end: the elements of a list, the one-character
    texts of a text, the keys of a mapping.  The keys come in the order of
    the map rather than in insertion order; the accessors only search them
    for a tag, and the outcome of that search does not depend on the order
    ([scan_over_texts] below). *)
Definition py_iter (v : pyval) : result (list pyval) :=
  match v with
  | PList l => Ok l
  | PStr s => Ok ((λ c, PStr (String c EmptyString)) <$> String.list_ascii_of_string s)
  | PDict m | PDictSub _ m => Ok (PStr <$> (map_to_list m).*1)
  | _ => Raise TypeError
  end.

(** [len(v)]. *)
Definition py_len (v : pyval) : result nat :=
  match v with
  | PStr s => Ok (String.length s)
  | PList l => Ok (length l)
  | PDict m | PDictSub _ m => Ok (size m)
  | _ => Raise TypeError
  end.

(** Code points below 256 that [str.strip] removes. *)
Definition is_space (c : ascii) : bool :=
  let n := Z.of_N (Ascii.N_of_ascii c) in
  ((9 <=? n) && (n <=? 13)) || ((28 <=? n) && (n <=? 32))
  || (n =? 133) || (n =? 160).

Fixpoint lstrip (s : string) : string :=
  match s with
  | EmptyString => EmptyString
  | String c s' => if is_space c then lstrip s' else s
  end.

Fixpoint rstrip (s : string) : string :=
  match s with
  | EmptyString => EmptyString
  | String c s' =>
      match rstrip s' with
      | EmptyString => if is_space c then EmptyString else String c EmptyString
      | r => String c r
      end
  end.

Definition strip (s : string) : string := rstrip (lstrip s).

(** [v.strip()]: only text has the method among the modelled values. *)
Definition py_strip (v : pyval) : result string :=
  match v with
  | PStr s => Ok (strip s)
  | _ => Raise AttributeError
  end.

(** [v.keys()], as a list of names. *)
Definition py_keys (v : pyval) : result (list string) :=
  match v with
  | PDict m | PDictSub _ m => Ok (map_to_list m).*1
  | _ => Raise AttributeError
  end.

(** [names.sort()] on a list of texts: ascending by code point. *)
Definition str_le (a b : string) : Prop := String.leb a b.

#[global] Instance str_le_dec : RelDecision str_le.
Proof. intros a b. unfold str_le. apply _. Defined.

Definition sort_names (names : list string) : list string :=
  merge_sort str_le names.

(** [delim.join(items)]: every item has to be text. *)
Fixpoint str_join (delim : string) (items : list pyval) : result string :=
  match items with
  | [] => Ok EmptyString
  | PStr s :: rest =>
      match rest with
      | [] => Ok s
      | _ => r ← str_join delim rest; Ok (s +:+ delim +:+ r)
      end
  | _ :: _ => Raise TypeError
  end.

(** The items [delim.join(v)] draws from [v], in order.  A [dict] yields
    its keys in insertion order, which the map does not record: for a
    mapping the order comes with the call, as [key_order], the keys of that
    very [dict] object as it lists them.  No other value consults it. *)
Definition py_items (key_order : list string) (v : pyval)
    : result (list pyval) :=
  match v with
  | PDict _ | PDictSub _ _ => Ok (PStr <$> key_order)
  | _ => py_iter v
  end.

(* ================================================================== *)
(** ** The imported date libraries *)

(** What [docs.py] uses of [datetime] and [dateutil.parser].  The parsers
    and formatters themselves live outside the repository, so they are
    left abstract; the interface states the two facts about them that the
    accessors rely on. *)
Class DateLib := {
  (** [dateutil.parser.isoparse(timestamp)] *)
  isoparse : pyval → result datetime;
  (** [datetime.datetime.strptime(text, format)] *)
  strptime : pyval → string → result datetime;
  (** [datetime.datetime.isoformat()] and [datetime.date.isoformat()] *)
  datetime_isoformat : datetime → string;
  date_isoformat : date → string;
  (** The exception of [d[:n]] on a [dict]: [TypeError] (unhashable
      slice) up to Python 3.11, [KeyError] from 3.12 on. *)
  dict_slice_exn : exn;
  (** The empty text is too short to be an ISO-8601 timestamp. *)
  isoparse_empty : isoparse (PStr "") = Raise ValueError;
  (** [strptime] takes text only. *)
  strptime_text_only :
    ∀ v fmt, type v ≠ TStr → strptime v fmt = Raise TypeError
}.

(** [v[:n]] *)
Definition py_slice_to `{DateLib} (n : nat) (v : pyval) : result pyval :=
  match v with
  | PStr s => Ok (PStr (str_take n s))
  | PList l => Ok (PList (take n l))
  | PDict _ | PDictSub _ _ => Raise dict_slice_exn
  | _ => Raise TypeError
  end.

Definition DT005 : string := "%Y%m%d%H%M%S.0".

(* ================================================================== *)
(** ** class VuFindMarcParser *)

Module VuFindMarcParser.

Record t := mk { fullrecord : pyval }.

Definition __init__ (doc : pyval) : result t :=
  let self := {| fullrecord := PNone |} in
  b ← py_contains "fullrecord" doc;
  if b : bool then
    v ← py_getitem doc "fullrecord";
    mret {| fullrecord := v |}
  else mret self.

Definition fields (self : t) : result pyval :=
  if negb (is_none (fullrecord self))
     && bool_decide (type (fullrecord self) = TDict) then
    b ← py_contains "fields" (fullrecord self);
    if b : bool then py_getitem (fullrecord self) "fields"
    else mret PNone
  else mret PNone.

(** The body of [for field in ...: if tag in field: return get field]
    over the elements still to visit; falling off the loop returns
    [None]. *)
Fixpoint scan (tag : string) (get : pyval → result pyval)
    (elements : list pyval) : result pyval :=
  match elements with
  | [] => mret PNone
  | field :: rest =>
      b ← py_contains tag field;
      if b : bool then get field else scan tag get rest
  end.

Definition latest_transaction (self : t) : result pyval :=
  f ← fields self;
  if negb (is_none f) then
    f ← fields self;
    elements ← py_iter f;
    scan "005" (λ field, py_getitem field "005") elements
  else mret PNone.

Section with_lib.
Context `{lib : DateLib}.

Definition latest_transaction_datetime (self : t) : result pyval :=
  latest_trans ← latest_transaction self;
  if negb (is_none latest_trans) then
    try_except_ValueError
      (PDateTime <$> strptime latest_trans DT005)
      (mret PNone)
  else mret PNone.

Definition latest_transaction_iso (self : t) : result pyval :=
  latest_trans_datetime ← latest_transaction_datetime self;
  match latest_trans_datetime with
  | PNone => mret PNone
  | PDateTime dt => mret (PStr (datetime_isoformat dt))
  | PDate d => mret (PStr (date_isoformat d))
  | _ => Raise AttributeError
  end.

Definition date_entered (self : t) : result pyval :=
  f ← fields self;
  if negb (is_none f) then
    f ← fields self;
    elements ← py_iter f;
    scan "008"
      (λ field, v ← py_getitem field "008"; py_slice_to 6 v) elements
  else mret PNone.

Definition date_entered_date (self : t) : result pyval :=
  date_entered ← date_entered self;
  cond ← (if negb (is_none date_entered) then
            stripped ← py_strip date_entered;
            mret (bool_decide (String.length stripped = 6%nat))
          else mret false);
  if cond : bool then
    try_except_ValueError
      ((λ dt, PDate (dt_date dt)) <$> strptime date_entered "%y%m%d")
      (mret PNone)
  else mret PNone.

Definition date_entered_iso (self : t) : result pyval :=
  date_entered_date ← date_entered_date self;
  match date_entered_date with
  | PNone => mret PNone
  | PDate d => mret (PStr (date_isoformat d))
  | PDateTime dt => mret (PStr (datetime_isoformat dt))
  | _ => Raise AttributeError
  end.

End with_lib.

End VuFindMarcParser.

(* ================================================================== *)
(** ** class VuFindParser *)

Module VuFindParser.

Record t := mk {
  raw : pyval;
  fields : list string;
  marc : option VuFindMarcParser.t
}.

Definition _names (self : t) : result (list string) :=
  if truthy (raw self) then
    names ← py_keys (raw self);
    mret (sort_names names)
  else mret [].

Definition __init__ (doc : pyval) (with_marc : bool) : result t :=
  let self := {| raw := doc; fields := []; marc := None |} in
  names ← _names self;
  let self := {| raw := raw self; fields := names; marc := None |} in
  if with_marc then
    m ← VuFindMarcParser.__init__ doc;
    mret {| raw := raw self; fields := fields self; marc := Some m |}
  else mret self.

Definition _field (self : t) (name : string) : result pyval :=
  if truthy (raw self) then
    b ← py_contains name (raw self);
    if b : bool then py_getitem (raw self) name else mret PNone
  else mret PNone.

Definition _field_first (self : t) (name : string) : result pyval :=
  field_list ← _field self name;
  if truthy field_list then
    n ← py_len field_list;
    if bool_decide (0 < n)%nat then py_getitem0 field_list else mret PNone
  else mret PNone.

(** [key_order] is not an argument of the method: it stands for the
    insertion order of the value found under [name] when that value is a
    mapping (see [py_items]). *)
Definition _field_joined (self : t) (name : string) (delim : string)
    (key_order : list string) : result pyval :=
  field_list ← _field self name;
  if truthy field_list then
    n ← py_len field_list;
    if bool_decide (0 < n)%nat then
      items ← py_items key_order field_list;
      PStr <$> str_join delim items
    else mret PNone
  else mret PNone.


Definition get (self : t) (name : string) : result pyval :=
  _field self name.

(** *** static fields *)

Definition _version_ (self : t) := _field self "_version_".
Definition author (self : t) := _field self "author".
Definition building (self : t) := _field self "building".
Definition container_title (self : t) := _field self "container_title".
Definition ctrlnum (self : t) := _field self "ctrlnum".
Definition edition (self : t) := _field self "edition".
Definition first_indexed (self : t) := _field self "first_indexed".
Definition format (self : t) := _field self "format".
Definition fullrecord (self : t) := _field self "fullrecord".
Definition hierarchytype (self : t) := _field self "hierarchytype".
Definition hierarchy_top_id (self : t) := _field self "hierarchy_top_id".
Definition hierarchy_parent_id (self : t) := _field self "hierarchy_top_id".
Definition id (self : t) := _field self "id".
Definition institution (self : t) := _field self "institution".
Definition is_hierarchy_id (self : t) := _field self "is_hierarchy_id".
Definition isbn (self : t) := _field self "isbn".
Definition issn (self : t) := _field self "issn".
Definition language (self : t) := _field self "language".
Definition last_indexed (self : t) := _field self "last_indexed".
Definition marc_error (self : t) := _field self "marc_error".
Definition publish_date (self : t) := _field self "publishDate".
Definition publish_date_sort (self : t) := _field self "publishDateSort".
Definition publisher (self : t) := _field self "publisher".
Definition record_format (self : t) := _field self "record_format".
Definition recordtype (self : t) := _field self "recordtype".
Definition title (self : t) := _field self "title".
Definition title_short (self : t) := _field self "title_short".
Definition thumbnail (self : t) := _field self "thumbnail".
Definition url (self : t) := _field self "url".

(** *** dynamic fields *)

Definition doi_str_mv (self : t) := _field self "doi_str_mv".

(** *** marc fields *)

Definition marc_latest_transaction (self : t) : result pyval :=
  match marc self with
  | Some m => VuFindMarcParser.latest_transaction m
  | None => mret PNone
  end.

Section with_lib.
Context `{lib : DateLib}.

Definition first_indexed_datetime (self : t) : result pyval :=
  timestamp ← last_indexed self;
  if truthy timestamp then PDateTime <$> isoparse timestamp
  else mret PNone.

Definition last_indexed_datetime (self : t) : result pyval :=
  timestamp ← last_indexed self;
  if truthy timestamp then PDateTime <$> isoparse timestamp
  else mret PNone.

Definition marc_latest_transaction_datetime (self : t) : result pyval :=
  match marc self with
  | Some m => VuFindMarcParser.latest_transaction_datetime m
  | None => mret PNone
  end.

Definition marc_latest_transaction_iso (self : t) : result pyval :=
  match marc self with
  | Some m => VuFindMarcParser.latest_transaction_iso m
  | None => mret PNone
  end.

Definition marc_date_entered (self : t) : result pyval :=
  match marc self with
  | Some m => VuFindMarcParser.date_entered m
  | None => mret PNone
  end.

Definition marc_date_entered_date (self : t) : result pyval :=
  match marc self with
  | Some m => VuFindMarcParser.date_entered_date m
  | None => mret PNone
  end.

Definition marc_date_entered_iso (self : t) : result pyval :=
  match marc self with
  | Some m => VuFindMarcParser.date_entered_iso m
  | None => mret PNone
  end.

End with_lib.

End VuFindParser.

(* ================================================================== *)
(** ** A small instance of the date interface

    [FixedWidth] implements [DateLib] for the canonical fixed-width
    renderings only: [YYYYMMDDhhmmss.0] and [yymmdd] for [strptime],
    [YYYY-MM-DDThh:mm:ss] with an optional [Z] for [isoparse].  It accepts
    less than the real libraries do; it is there to run the accessors on
    concrete documents. *)

Module FixedWidth.

Definition digit (c : ascii) : option Z :=
  let n := Z.of_N (N_of_ascii c) in
  if (48 <=? n) && (n <=? 57) then Some (n - 48) else None.

Fixpoint number_from (acc : Z) (s : string) : option Z :=
  match s with
  | EmptyString => Some acc
  | String c s' => d ← digit c; number_from (10 * acc + d) s'
  end.

(** The number written at positions [pos .. pos+len-1] of [s]. *)
Definition number_at (pos len : nat) (s : string) : option Z :=
  let piece := String.substring pos len s in
  if bool_decide (String.length piece = len) then number_from 0 piece
  else None.

Definition char_at (pos : nat) (s : string) : string :=
  String.substring pos 1 s.

Definition is_leap (y : Z) : bool :=
  (y mod 4 =? 0) && (negb (y mod 100 =? 0) || (y mod 400 =? 0)).

Definition days_in_month (y m : Z) : Z :=
  if m =? 2 then (if is_leap y then 29 else 28)
  else if (m =? 4) || (m =? 6) || (m =? 9) || (m =? 11) then 30
  else 31.

Definition valid_date (y m d : Z) : bool :=
  (1 <=? y) && (y <=? 9999) && (1 <=? m) && (m <=? 12)
  && (1 <=? d) && (d <=? days_in_month y m).

Definition valid_time (h mi s : Z) : bool :=
  (h <? 24) && (mi <? 60) && (s <? 60).

Definition build (y m d h mi s : Z) (off : option Z) : option datetime :=
  if valid_date y m d && valid_time h mi s
  then Some (mkdatetime (mkdate y m d) h mi s 0 off)
  else None.

(** [%Y%m%d%H%M%S.0] *)
Definition parse_005 (s : string) : option datetime :=
  if bool_decide (String.length s = 16%nat)
     && String.eqb (String.substring 14 2 s) ".0" then
    y ← number_at 0 4 s; m ← number_at 4 2 s; d ← number_at 6 2 s;
    h ← number_at 8 2 s; mi ← number_at 10 2 s; sec ← number_at 12 2 s;
    build y m d h mi sec None
  else None.

(** [%y%m%d], two-digit years 69..99 in the 1900s, 00..68 in the 2000s. *)
Definition parse_yymmdd (s : string) : option datetime :=
  if bool_decide (String.length s = 6%nat) then
    yy ← number_at 0 2 s; m ← number_at 2 2 s; d ← number_at 4 2 s;
    build (if yy <? 69 then 2000 + yy else 1900 + yy) m d 0 0 0 None
  else None.

(** [YYYY-MM-DDThh:mm:ss] and [YYYY-MM-DDThh:mm:ssZ] *)
Definition parse_iso (s : string) : option datetime :=
  let n := String.length s in
  let zulu := bool_decide (n = 20%nat) && String.eqb (char_at 19 s) "Z" in
  if (bool_decide (n = 19%nat) || zulu)
     && String.eqb (char_at 4 s) "-" && String.eqb (char_at 7 s) "-"
     && String.eqb (char_at 10 s) "T"
     && String.eqb (char_at 13 s) ":" && String.eqb (char_at 16 s) ":" then
    y ← number_at 0 4 s; m ← number_at 5 2 s; d ← number_at 8 2 s;
    h ← number_at 11 2 s; mi ← number_at 14 2 s; sec ← number_at 17 2 s;
    build y m d h mi sec (if zulu then Some 0 else None)
  else None.

Definition text_parser (p : string → option datetime) (v : pyval)
    : result datetime :=
  match v with
  | PStr s => match p s with Some dt => Ok dt | None => Raise ValueError end
  | _ => Raise TypeError
  end.

Definition strptime_fw (v : pyval) (fmt : string) : result datetime :=
  text_parser
    (if String.eqb fmt "%Y%m%d%H%M%S.0" then parse_005
     else if String.eqb fmt "%y%m%d" then parse_yymmdd
     else λ _, None) v.

(** [z] written with [width] decimal digits. *)
Fixpoint padded (width : nat) (z : Z) : string :=
  match width with
  | O => ""
  | S w =>
      padded w (z / 10)
      +:+ String (ascii_of_N (Z.to_N (48 + z mod 10))) EmptyString
  end.

Definition date_text (d : date) : string :=
  padded 4 (year d) +:+ "-" +:+ padded 2 (month d)
  +:+ "-" +:+ padded 2 (day d).

Definition offset_text (off : Z) : string :=
  let a := Z.abs off in
  (if off <? 0 then "-" else "+")
  +:+ padded 2 (a / 3600) +:+ ":" +:+ padded 2 (a / 60 mod 60)
  +:+ (if a mod 60 =? 0 then "" else ":" +:+ padded 2 (a mod 60)).

Definition datetime_text (dt : datetime) : string :=
  date_text (dt_date dt) +:+ "T" +:+ padded 2 (hour dt)
  +:+ ":" +:+ padded 2 (minute dt) +:+ ":" +:+ padded 2 (second dt)
  +:+ (if microsecond dt =? 0 then ""
       else "." +:+ padded 6 (microsecond dt))
  +:+ match utcoffset dt with Some off => offset_text off | None => "" end.

Lemma isoparse_fw_empty : text_parser parse_iso (PStr "") = Raise ValueError.
Proof. reflexivity. Qed.

Lemma strptime_fw_text_only v fmt :
  type v ≠ TStr → strptime_fw v fmt = Raise TypeError.
Proof. destruct v; simpl; intros Hty; try reflexivity. congruence. Qed.

(** The exception choice is the one of Python 3.12 and later. *)
Definition lib : DateLib := {|
  isoparse := text_parser parse_iso;
  strptime := strptime_fw;
  datetime_isoformat := datetime_text;
  date_isoformat := date_text;
  dict_slice_exn := KeyError;
  isoparse_empty := isoparse_fw_empty;
  strptime_text_only := strptime_fw_text_only
|}.

End FixedWidth.

(* ================================================================== *)
(** ** Sample documents *)

Definition marc_sample : pyval :=
  PDict {[ "fields" :=
    PList [ PDict {[ "008" := PStr "230501abcdef" ]};
            PDict {[ "005" := PStr "20230501123045.0" ]} ] ]}.

Definition doc_sample : pyval :=
  PDict (<[ "id" := PStr "rec1" ]>
         (<[ "last_indexed" := PStr "2023-05-01T12:00:00Z" ]>
         (<[ "title" := PStr "A title" ]>
         {[ "fullrecord" := marc_sample ]}))).

(** The shape of a [fullrecord] value that the interface description
    calls usable: a [dict] whose ["fields"] entry is a list of mappings. *)
Definition is_mapping (v : pyval) : bool :=
  match v with PDict _ | PDictSub _ _ => true | _ => false end.

Definition marc_shaped (v : pyval) : bool :=
  match v with
  | PDict m =>
      match m !! "fields" with
      | Some (PList l) => forallb is_mapping l
      | _ => false
      end
  | _ => false
  end.

(* ================================================================== *)
(** * Properties *)

(** ** Running the accessors on the sample document *)

Example sample_names :
  VuFindParser.fields <$> VuFindParser.__init__ doc_sample true
  = Ok ["fullrecord"; "id"; "last_indexed"; "title"].
Proof. vm_compute. reflexivity. Qed.

Example sample_marc_date_entered :
  VuFindParser.__init__ doc_sample true
    ≫= VuFindParser.marc_date_entered (lib := FixedWidth.lib)
  = Ok (PStr "230501").
Proof. vm_compute. reflexivity. Qed.

Example sample_marc_date_entered_iso :
  VuFindParser.__init__ doc_sample true
    ≫= VuFindParser.marc_date_entered_iso (lib := FixedWidth.lib)
  = Ok (PStr "2023-05-01").
Proof. vm_compute. reflexivity. Qed.

Example sample_marc_latest_transaction_iso :
  VuFindParser.__init__ doc_sample true
    ≫= VuFindParser.marc_latest_transaction_iso (lib := FixedWidth.lib)
  = Ok (PStr "2023-05-01T12:30:45").
Proof. vm_compute. reflexivity. Qed.

Example sample_without_marc :
  VuFindParser.__init__ doc_sample false
    ≫= VuFindParser.marc_date_entered (lib := FixedWidth.lib)
  = Ok PNone.
Proof. vm_compute. reflexivity. Qed.

(** ** Lemmas on the primitives *)

Lemma str_take_short (n : nat) (s : string) :
  (String.length s ≤ n)%nat → str_take n s = s.
Proof.
  revert n. induction s as [|c s IH]; intros [|n] Hlen; simpl in *;
    try reflexivity; try lia.
  f_equal. apply IH. lia.
Qed.

Lemma str_take_length (n : nat) (s : string) :
  String.length (str_take n s) = (n `min` String.length s)%nat.
Proof.
  revert n. induction s as [|c s IH]; intros [|n]; simpl; try reflexivity.
  by rewrite IH.
Qed.

Lemma str_take_prefix (n : nat) (s : string) :
  String.prefix (str_take n s) s = true.
Proof.
  revert n. induction s as [|c s IH]; intros [|n]; simpl; try reflexivity.
  destruct (ascii_dec c c); [apply IH | congruence].
Qed.

Lemma contains_dict (key : string) (m : gmap string pyval) (x : pyval) :
  m !! key = Some x → py_contains key (PDict m) = Ok true.
Proof.
  intros Hk. simpl. f_equal. apply bool_decide_eq_true_2. by exists x.
Qed.

Lemma contains_dict_missing (key : string) (m : gmap string pyval) :
  m !! key = None → py_contains key (PDict m) = Ok false.
Proof.
  intros Hk. simpl. f_equal. apply bool_decide_eq_false_2.
  rewrite Hk. by intros [? ?].
Qed.

(** ** Lemmas on [VuFindMarcParser] *)

Lemma marc_fields_eq (self : VuFindMarcParser.t) :
  VuFindMarcParser.fields self
  = Ok match VuFindMarcParser.fullrecord self with
       | PDict m => default PNone (m !! "fields")
       | _ => PNone
       end.
Proof.
  destruct self as [fr]. unfold VuFindMarcParser.fields. simpl.
  destruct fr; try reflexivity.
  change (negb (is_none (PDict m)) && bool_decide (type (PDict m) = TDict))
    with true.
  unfold andb. destruct (m !! "fields") as [x|] eqn:Hf.
  - rewrite (contains_dict _ _ _ Hf). simpl. by rewrite Hf.
  - by rewrite (contains_dict_missing _ _ Hf).
Qed.

(** The loop returns at the first element that contains the tag. *)
Lemma scan_first_hit (tag : string) (get : pyval → result pyval)
    (pre post : list pyval) (hit : pyval) :
  Forall (λ e, py_contains tag e = Ok false) pre →
  py_contains tag hit = Ok true →
  VuFindMarcParser.scan tag get (pre ++ hit :: post) = get hit.
Proof.
  intros Hpre Hhit. induction Hpre as [|e pre He _ IH]; simpl.
  - by rewrite Hhit.
  - by rewrite He.
Qed.

(** Without any element containing the tag the loop falls through. *)
Lemma scan_no_hit (tag : string) (get : pyval → result pyval)
    (elements : list pyval) :
  Forall (λ e, py_contains tag e = Ok false) elements →
  VuFindMarcParser.scan tag get elements = Ok PNone.
Proof.
  induction 1 as [|e l He _ IH]; simpl; [reflexivity | by rewrite He].
Qed.

(** Over texts (the keys of a mapping, the characters of a text) the loop
    fails as soon as one of them contains the tag, because a text cannot be
    subscripted with it; the outcome depends on the texts as a set only. *)
Lemma scan_over_texts (tag : string) (get : pyval → result pyval)
    (texts : list string) :
  (∀ s, get (PStr s) = Raise TypeError) →
  VuFindMarcParser.scan tag get (PStr <$> texts)
  = if existsb (str_contains tag) texts then Raise TypeError else Ok PNone.
Proof.
  intros Hget. induction texts as [|s texts IH]; simpl; [reflexivity|].
  destruct (str_contains tag s); simpl; [apply Hget | apply IH].
Qed.

Lemma latest_transaction_at (self : VuFindMarcParser.t)
    (fr m : gmap string pyval) (pre post : list pyval) (v : pyval) :
  VuFindMarcParser.fullrecord self = PDict fr →
  fr !! "fields" = Some (PList (pre ++ PDict m :: post)) →
  Forall (λ e, py_contains "005" e = Ok false) pre →
  m !! "005" = Some v →
  VuFindMarcParser.latest_transaction self = Ok v.
Proof.
  intros Hfr Hfields Hpre Hv. unfold VuFindMarcParser.latest_transaction.
  rewrite marc_fields_eq, Hfr, Hfields. simpl.
  rewrite (scan_first_hit _ _ _ _ _ Hpre (contains_dict _ _ _ Hv)).
  simpl. by rewrite Hv.
Qed.

(** ** Lemmas on [VuFindParser] *)

Lemma field_dict (self : VuFindParser.t) (m : gmap string pyval)
    (name : string) :
  VuFindParser.raw self = PDict m →
  VuFindParser._field self name = Ok (default PNone (m !! name)).
Proof.
  intros Hraw. unfold VuFindParser._field. rewrite Hraw. simpl.
  destruct (decide (m = ∅)) as [->|Hne].
  - rewrite bool_decide_eq_true_2 by done. simpl. by rewrite lookup_empty.
  - rewrite bool_decide_eq_false_2 by done. simpl.
    destruct (m !! name) as [x|] eqn:Hk.
    + rewrite bool_decide_eq_true_2 by eauto. reflexivity.
    + rewrite bool_decide_eq_false_2; [done|]. by intros [? ?].
Qed.

Lemma field_falsy (self : VuFindParser.t) (name : string) :
  truthy (VuFindParser.raw self) = false →
  VuFindParser._field self name = Ok PNone.
Proof. intros Hraw. unfold VuFindParser._field. by rewrite Hraw. Qed.

(* ================================================================== *)
(** ** Construction *)

(** Construction without MARC parsing succeeds on the absent document and
    on every mapping. *)
Lemma init_without_marc_absent :
  VuFindParser.__init__ PNone false = Ok (VuFindParser.mk PNone [] None).
Proof. reflexivity. Qed.

Lemma init_mapping (m : gmap string pyval) (with_marc : bool) :
  ∃ self, VuFindParser.__init__ (PDict m) with_marc = Ok self
          ∧ VuFindParser.raw self = PDict m.
Proof.
  unfold VuFindParser.__init__, VuFindParser._names. simpl.
  destruct (negb (bool_decide (m = ∅))); simpl;
    (destruct with_marc; [|eauto]);
    unfold VuFindMarcParser.__init__; simpl;
    destruct (bool_decide (is_Some (m !! "fullrecord"))) eqn:Hb; simpl;
    eauto;
    apply bool_decide_eq_true_1 in Hb; destruct Hb as [x Hx];
    rewrite Hx; simpl; eauto.
Qed.

(** C1, at the input where the code departs from it: constructing the
    accessor from the absent document with MARC parsing requested raises
    [TypeError] (the membership test ["fullrecord" in doc] of
    [VuFindMarcParser.__init__] runs on [None]), although the name listing
    and the field lookup of the same accessor both accept the absent
    document. *)
Theorem init_absent_document_with_marc_raises :
  VuFindParser.__init__ PNone true = Raise TypeError
  ∧ VuFindMarcParser.__init__ PNone = Raise TypeError
  ∧ VuFindParser._names (VuFindParser.mk PNone [] None) = Ok []
  ∧ VuFindParser._field (VuFindParser.mk PNone [] None) "fullrecord"
    = Ok PNone.
Proof. repeat split; reflexivity. Qed.

(** C3 as stated fails on the empty document: with MARC parsing requested
    the accessor is built, [raw] is falsy, and [marc] is present. *)
Lemma marc_present_for_empty_document :
  let built :=
    VuFindParser.mk (PDict ∅) [] (Some (VuFindMarcParser.mk PNone)) in
  VuFindParser.__init__ (PDict ∅) true = Ok built
  ∧ ¬ (is_Some (VuFindParser.marc built)
       ↔ true = true ∧ truthy (VuFindParser.raw built) = true).
Proof.
  split; [reflexivity|]. simpl. intros [Hpresent _].
  destruct Hpresent as [_ Hraw]; [by eexists|]. discriminate Hraw.
Qed.

(** C3, amended: whenever construction succeeds, [marc] is present exactly
    when MARC parsing was requested, whatever the truth value of the stored
    document; construction succeeds on every mapping, and on the empty one
    with MARC requested [marc] is present with an absent [fullrecord]. *)
Theorem marc_present_iff_requested :
  (∀ (doc : pyval) (with_marc : bool) (self : VuFindParser.t),
     VuFindParser.__init__ doc with_marc = Ok self →
     VuFindParser.raw self = doc
     ∧ (is_Some (VuFindParser.marc self) ↔ with_marc = true))
  ∧ (∀ (m : gmap string pyval) (with_marc : bool),
       ∃ self, VuFindParser.__init__ (PDict m) with_marc = Ok self)
  ∧ VuFindParser.marc <$> VuFindParser.__init__ (PDict ∅) true
    = Ok (Some (VuFindMarcParser.mk PNone)).
Proof.
  split; [|split; [|reflexivity]].
  - intros doc with_marc self. unfold VuFindParser.__init__.
    destruct (VuFindParser._names _) as [names|e]; simpl; [|discriminate].
    destruct with_marc.
    + destruct (VuFindMarcParser.__init__ doc) as [mp|e]; simpl;
        [|discriminate].
      intros [= <-]. simpl. split; [reflexivity|]. split; eauto.
    + intros [= <-]. simpl. split; [reflexivity|].
      split; [intros [? ?]|]; discriminate.
  - intros m with_marc. destruct (init_mapping m with_marc) as (self & H & _).
    eauto.
Qed.

Lemma marc_present_iff_requested_witness :
  VuFindParser.raw
    (VuFindParser.mk (PDict ∅) [] (Some (VuFindMarcParser.mk PNone)))
  = PDict ∅
  ∧ (is_Some (VuFindParser.marc
       (VuFindParser.mk (PDict ∅) [] (Some (VuFindMarcParser.mk PNone))))
     ↔ true = true).
Proof.
  apply (proj1 marc_present_iff_requested (PDict ∅) true). reflexivity.
Defined.

(* ================================================================== *)
(** ** Plain field accessors *)

(** C9: [hierarchy_parent_id] reads the key ["hierarchy_top_id"]: it gives
    what [hierarchy_top_id] gives, the value stored under
    ["hierarchy_top_id"] when there is one, and nothing when that key is
    missing even if the document has a ["hierarchy_parent_id"] entry. *)
Theorem hierarchy_parent_id_reads_top_id (self : VuFindParser.t) :
  VuFindParser.hierarchy_parent_id self = VuFindParser.hierarchy_top_id self
  ∧ (∀ (m : gmap string pyval) (v : pyval),
       VuFindParser.raw self = PDict m →
       m !! "hierarchy_top_id" = Some v →
       VuFindParser.hierarchy_parent_id self = Ok v)
  ∧ (∀ (m : gmap string pyval) (v : pyval),
       VuFindParser.raw self = PDict (<["hierarchy_parent_id" := v]> m) →
       m !! "hierarchy_top_id" = None →
       VuFindParser.hierarchy_parent_id self = Ok PNone).
Proof.
  split; [reflexivity|]. unfold VuFindParser.hierarchy_parent_id. split.
  - intros m v Hraw Hv. by rewrite (field_dict _ _ _ Hraw), Hv.
  - intros m v Hraw Hv. rewrite (field_dict _ _ _ Hraw).
    by rewrite lookup_insert_ne, Hv.
Qed.

Lemma hierarchy_parent_id_reads_top_id_witness :
  VuFindParser.hierarchy_parent_id
    (VuFindParser.mk (PDict {[ "hierarchy_parent_id" := PStr "p1" ]})
       ["hierarchy_parent_id"] None)
  = Ok PNone.
Proof.
  apply (proj2 (proj2 (hierarchy_parent_id_reads_top_id
           (VuFindParser.mk (PDict {[ "hierarchy_parent_id" := PStr "p1" ]})
              ["hierarchy_parent_id"] None))) ∅ (PStr "p1"));
    reflexivity.
Defined.

(* ================================================================== *)
(** ** The MARC [fields] guard *)

(** C8: [fields] gives [fullrecord["fields"]] exactly when the stored
    [fullrecord] is of type [dict] itself and has the key ["fields"], and
    nothing otherwise; an instance of a subclass of [dict] does not pass
    the type test even when it has the key. *)
Theorem marc_fields_exact_dict (self : VuFindMarcParser.t) :
  VuFindMarcParser.fields self
  = Ok match VuFindMarcParser.fullrecord self with
       | PDict m =>
           match m !! "fields" with Some v => v | None => PNone end
       | _ => PNone
       end
  ∧ ((∃ m v, VuFindMarcParser.fullrecord self = PDict m
             ∧ m !! "fields" = Some v
             ∧ VuFindMarcParser.fields self = Ok v)
     ∨ ((¬ ∃ m, VuFindMarcParser.fullrecord self = PDict m
               ∧ is_Some (m !! "fields"))
        ∧ VuFindMarcParser.fields self = Ok PNone))
  ∧ ∀ (cls : string) (m : gmap string pyval),
      VuFindMarcParser.fields (VuFindMarcParser.mk (PDictSub cls m))
      = Ok PNone.
Proof.
  split; [apply marc_fields_eq|]. split; [|reflexivity].
  rewrite marc_fields_eq. destruct self as [fr]. simpl.
  destruct fr;
    try (right; split; [intros (m' & [=] & _) | reflexivity]).
  destruct (m !! "fields") as [v|] eqn:Hf.
  - left. exists m, v. by rewrite Hf.
  - right. split; [|reflexivity]. intros (m' & [= <-] & Hsome).
    rewrite Hf in Hsome. by destruct Hsome.
Qed.

Lemma marc_fields_exact_dict_witness :
  VuFindMarcParser.fields
    (VuFindMarcParser.mk (PDictSub "OrderedDict" {[ "fields" := PList [] ]}))
  = Ok PNone.
Proof.
  apply (proj2 (proj2 (marc_fields_exact_dict (VuFindMarcParser.mk PNone)))).
Defined.

(** What [VuFindMarcParser.__init__] stores for a mapping document. *)
Lemma marc_init_mapping (doc : gmap string pyval) :
  VuFindMarcParser.__init__ (PDict doc)
  = Ok (VuFindMarcParser.mk (default PNone (doc !! "fullrecord"))).
Proof.
  unfold VuFindMarcParser.__init__.
  destruct (doc !! "fullrecord") as [x|] eqn:Hk.
  - rewrite (contains_dict _ _ _ Hk). simpl. by rewrite Hk.
  - by rewrite (contains_dict_missing _ _ Hk).
Qed.

(** C2 as stated fails when the ["fields"] entry is not a sequence: for
    [fullrecord = {"fields": 5}] the [fields] accessor gives [5] rather
    than nothing, and [latest_transaction] raises [TypeError] from
    iterating over the number. *)
Lemma marc_fields_entry_not_a_sequence :
  let doc := PDict {[ "fullrecord" := PDict {[ "fields" := PInt 5 ]} ]} in
  let self := VuFindMarcParser.mk (PDict {[ "fields" := PInt 5 ]}) in
  VuFindMarcParser.__init__ doc = Ok self
  ∧ marc_shaped (VuFindMarcParser.fullrecord self) = false
  ∧ VuFindMarcParser.fields self = Ok (PInt 5)
  ∧ VuFindMarcParser.latest_transaction self = Raise TypeError.
Proof. repeat split; vm_compute; reflexivity. Qed.

(** A list of non-mappings under ["fields"] fails in the same way. *)
Example marc_fields_entry_of_numbers :
  VuFindMarcParser.latest_transaction
    (VuFindMarcParser.mk (PDict {[ "fields" := PList [PInt 5] ]}))
  = Raise TypeError.
Proof. vm_compute. reflexivity. Qed.

Section contract.
Context `{lib : DateLib}.

(** C2, amended: every MARC accessor returns nothing and none raises
    whenever the stored [fullrecord] is not of type [dict] itself (it is
    absent, a list, any non-mapping value, an instance of a [dict]
    subclass), or is a [dict] without a ["fields"] key, or is a [dict]
    holding [None] under ["fields"]; in every other case the [fields]
    accessor does not return nothing.  When [fullrecord] is a [dict] that
    has ["fields"], the [fields] accessor returns that value whatever its
    shape. *)
Theorem marc_accessors_absent_without_fields (self : VuFindMarcParser.t) :
  (type (VuFindMarcParser.fullrecord self) ≠ TDict
   ∨ (∃ m, VuFindMarcParser.fullrecord self = PDict m
           ∧ (m !! "fields" = None ∨ m !! "fields" = Some PNone)) →
   VuFindMarcParser.fields self = Ok PNone
   ∧ VuFindMarcParser.latest_transaction self = Ok PNone
   ∧ VuFindMarcParser.latest_transaction_datetime self = Ok PNone
   ∧ VuFindMarcParser.latest_transaction_iso self = Ok PNone
   ∧ VuFindMarcParser.date_entered self = Ok PNone
   ∧ VuFindMarcParser.date_entered_date self = Ok PNone
   ∧ VuFindMarcParser.date_entered_iso self = Ok PNone)
  ∧ (VuFindMarcParser.fields self = Ok PNone →
     type (VuFindMarcParser.fullrecord self) ≠ TDict
     ∨ (∃ m, VuFindMarcParser.fullrecord self = PDict m
             ∧ (m !! "fields" = None ∨ m !! "fields" = Some PNone)))
  ∧ (∀ (m : gmap string pyval) (v : pyval),
       VuFindMarcParser.fullrecord self = PDict m →
       m !! "fields" = Some v →
       VuFindMarcParser.fields self = Ok v).
Proof.
  split; [|split].
  - intros Hshape.
    assert (VuFindMarcParser.fields self = Ok PNone) as Hfields.
    { rewrite marc_fields_eq.
      destruct Hshape as [Hty|(m & -> & [-> | ->])]; [|done..].
      by destruct (VuFindMarcParser.fullrecord self). }
    assert (VuFindMarcParser.latest_transaction self = Ok PNone) as Hlt.
    { unfold VuFindMarcParser.latest_transaction. by rewrite Hfields. }
    assert (VuFindMarcParser.latest_transaction_datetime self = Ok PNone)
      as Hltd.
    { unfold VuFindMarcParser.latest_transaction_datetime. by rewrite Hlt. }
    assert (VuFindMarcParser.date_entered self = Ok PNone) as Hde.
    { unfold VuFindMarcParser.date_entered. by rewrite Hfields. }
    assert (VuFindMarcParser.date_entered_date self = Ok PNone) as Hded.
    { unfold VuFindMarcParser.date_entered_date. by rewrite Hde. }
    repeat split; try assumption.
    + unfold VuFindMarcParser.latest_transaction_iso. by rewrite Hltd.
    + unfold VuFindMarcParser.date_entered_iso. by rewrite Hded.
  - rewrite marc_fields_eq.
    destruct (VuFindMarcParser.fullrecord self) as [| | | | |m| | |];
      try (intros _; left; discriminate).
    intros [= Hv]. right. exists m. split; [reflexivity|].
    destruct (m !! "fields") as [v|]; [right|by left].
    simpl in Hv. by rewrite Hv.
  - intros m v Hfr Hv. by rewrite marc_fields_eq, Hfr, Hv.
Qed.

(** ** Index timestamps *)

Lemma isoparse_ok_nonempty (s : string) (dt : datetime) :
  isoparse (PStr s) = Ok dt → truthy (PStr s) = true.
Proof.
  intros Hparse. simpl. destruct (String.eqb_spec s "") as [->|]; [|done].
  rewrite isoparse_empty in Hparse. discriminate.
Qed.

Lemma str_nonempty_truthy (s : string) : s ≠ "" → truthy (PStr s) = true.
Proof. intros Hs. simpl. by destruct (String.eqb_spec s ""). Qed.

(** C4: [first_indexed_datetime] is computed from the ["last_indexed"]
    entry, like [last_indexed_datetime]: the two agree on every accessor
    and do not look at the ["first_indexed"] entry; when ["last_indexed"]
    holds a text that [isoparse] accepts both give the parsed instant,
    and both give nothing when the entry (or the document) is absent. *)
Theorem first_indexed_datetime_reads_last_indexed (self : VuFindParser.t) :
  VuFindParser.first_indexed_datetime self
  = VuFindParser.last_indexed_datetime self
  ∧ (∀ (m : gmap string pyval) (s : string) (dt : datetime),
       VuFindParser.raw self = PDict m →
       m !! "last_indexed" = Some (PStr s) →
       isoparse (PStr s) = Ok dt →
       VuFindParser.first_indexed_datetime self = Ok (PDateTime dt)
       ∧ VuFindParser.last_indexed_datetime self = Ok (PDateTime dt))
  ∧ (∀ m : gmap string pyval,
       VuFindParser.raw self = PDict m →
       m !! "last_indexed" = None →
       VuFindParser.first_indexed_datetime self = Ok PNone
       ∧ VuFindParser.last_indexed_datetime self = Ok PNone)
  ∧ (VuFindParser.raw self = PNone →
       VuFindParser.first_indexed_datetime self = Ok PNone
       ∧ VuFindParser.last_indexed_datetime self = Ok PNone)
  ∧ (∀ (m : gmap string pyval) (v : pyval),
       VuFindParser.raw self = PDict m →
       VuFindParser.first_indexed_datetime
         (VuFindParser.mk (PDict (<["first_indexed" := v]> m))
            (VuFindParser.fields self) (VuFindParser.marc self))
       = VuFindParser.first_indexed_datetime self).
Proof.
  split; [reflexivity|].
  unfold VuFindParser.first_indexed_datetime,
    VuFindParser.last_indexed_datetime, VuFindParser.last_indexed.
  split; [|split; [|split]].
  - intros m s dt Hraw Hs Hparse.
    pose proof (isoparse_ok_nonempty _ _ Hparse) as Htruthy.
    rewrite (field_dict _ _ _ Hraw), Hs. simpl in *.
    rewrite Htruthy, Hparse. by split.
  - intros m Hraw Hs. rewrite (field_dict _ _ _ Hraw), Hs. by split.
  - intros Hraw. rewrite field_falsy; [by split | by rewrite Hraw].
  - intros m v Hraw.
    rewrite (field_dict self m _ Hraw).
    rewrite (field_dict (VuFindParser.mk _ _ _)
               (<["first_indexed" := v]> m) _ eq_refl).
    by rewrite lookup_insert_ne.
Qed.

(** C5, amended: when ["last_indexed"] holds a non-empty text on which
    [isoparse] raises, both datetime accessors raise that same error;
    the empty text is falsy, so for it both return nothing and the
    parser is never called. *)
Theorem indexed_datetime_propagates_parse_error
    (self : VuFindParser.t) (m : gmap string pyval) :
  VuFindParser.raw self = PDict m →
  (∀ (s : string) (e : exn),
     m !! "last_indexed" = Some (PStr s) →
     s ≠ "" →
     isoparse (PStr s) = Raise e →
     VuFindParser.last_indexed_datetime self = Raise e
     ∧ VuFindParser.first_indexed_datetime self = Raise e)
  ∧ (m !! "last_indexed" = Some (PStr "") →
     VuFindParser.last_indexed_datetime self = Ok PNone
     ∧ VuFindParser.first_indexed_datetime self = Ok PNone).
Proof.
  intros Hraw.
  unfold VuFindParser.first_indexed_datetime,
    VuFindParser.last_indexed_datetime, VuFindParser.last_indexed.
  rewrite (field_dict _ _ _ Hraw). split.
  - intros s e Hs Hne Hparse.
    pose proof (str_nonempty_truthy _ Hne) as Htruthy.
    rewrite Hs. simpl in *. rewrite Htruthy, Hparse. by split.
  - intros Hs. rewrite Hs. by split.
Qed.

End contract.

(** C5 as stated fails on the empty text: it is present and [isoparse]
    rejects it, yet the accessors return nothing instead of raising. *)
Lemma empty_last_indexed_gives_absent :
  let self :=
    VuFindParser.mk (PDict {[ "last_indexed" := PStr "" ]})
      ["last_indexed"] None in
  VuFindParser.__init__ (PDict {[ "last_indexed" := PStr "" ]}) false
  = Ok self
  ∧ VuFindParser.last_indexed self = Ok (PStr "")
  ∧ isoparse (DateLib := FixedWidth.lib) (PStr "") = Raise ValueError
  ∧ VuFindParser.last_indexed_datetime (lib := FixedWidth.lib) self
    = Ok PNone
  ∧ VuFindParser.first_indexed_datetime (lib := FixedWidth.lib) self
    = Ok PNone.
Proof. repeat split; vm_compute; reflexivity. Qed.

(* ================================================================== *)
(** ** MARC dates *)

Section marc_contract.
Context `{lib : DateLib}.

(** C6: [latest_transaction_datetime] hands the present
    [latest_transaction] text to [strptime] with the format [DT005],
    which is [%Y%m%d%H%M%S.0]; it returns the parsed datetime, returns
    nothing when [strptime] raises [ValueError], and returns nothing
    when [latest_transaction] is absent. *)
Theorem latest_transaction_datetime_swallows_value_error
    (self : VuFindMarcParser.t) :
  DT005 = "%Y%m%d%H%M%S.0"
  ∧ (∀ (s : string) (dt : datetime),
       VuFindMarcParser.latest_transaction self = Ok (PStr s) →
       strptime (PStr s) DT005 = Ok dt →
       VuFindMarcParser.latest_transaction_datetime self
       = Ok (PDateTime dt))
  ∧ (∀ s : string,
       VuFindMarcParser.latest_transaction self = Ok (PStr s) →
       strptime (PStr s) DT005 = Raise ValueError →
       VuFindMarcParser.latest_transaction_datetime self = Ok PNone)
  ∧ (VuFindMarcParser.latest_transaction self = Ok PNone →
     VuFindMarcParser.latest_transaction_datetime self = Ok PNone).
Proof.
  split; [reflexivity|].
  unfold VuFindMarcParser.latest_transaction_datetime.
  split; [|split].
  - intros s dt Hlt Hparse. rewrite Hlt. simpl. by rewrite Hparse.
  - intros s Hlt Hparse. rewrite Hlt. simpl. by rewrite Hparse.
  - intros Hlt. by rewrite Hlt.
Qed.

(** C10, amended: when the first ["005"] entry holds a value that is
    neither text nor [None], [latest_transaction_datetime] raises
    [TypeError]: [strptime] rejects the argument and only [ValueError]
    is caught.  When the entry holds [None] the accessor returns
    nothing. *)
Theorem latest_transaction_datetime_type_error
    (self : VuFindMarcParser.t) (fr m : gmap string pyval)
    (pre post : list pyval) (v : pyval) :
  VuFindMarcParser.fullrecord self = PDict fr →
  fr !! "fields" = Some (PList (pre ++ PDict m :: post)) →
  Forall (λ e, py_contains "005" e = Ok false) pre →
  m !! "005" = Some v →
  type v ≠ TStr →
  (v ≠ PNone →
   VuFindMarcParser.latest_transaction_datetime self = Raise TypeError)
  ∧ (v = PNone →
     VuFindMarcParser.latest_transaction_datetime self = Ok PNone).
Proof.
  intros Hfr Hfields Hpre Hv Hty.
  unfold VuFindMarcParser.latest_transaction_datetime.
  rewrite (latest_transaction_at _ _ _ _ _ _ Hfr Hfields Hpre Hv).
  split.
  - intros Hnone. simpl.
    replace (is_none v) with false by by destruct v.
    simpl. by rewrite (strptime_text_only _ _ Hty).
  - by intros ->.
Qed.

Lemma date_entered_at (self : VuFindMarcParser.t)
    (fr m : gmap string pyval) (pre post : list pyval) (v : pyval) :
  VuFindMarcParser.fullrecord self = PDict fr →
  fr !! "fields" = Some (PList (pre ++ PDict m :: post)) →
  Forall (λ e, py_contains "008" e = Ok false) pre →
  m !! "008" = Some v →
  VuFindMarcParser.date_entered self = py_slice_to 6 v.
Proof.
  intros Hfr Hfields Hpre Hv. unfold VuFindMarcParser.date_entered.
  rewrite marc_fields_eq, Hfr, Hfields. simpl.
  rewrite (scan_first_hit _ _ _ _ _ Hpre (contains_dict _ _ _ Hv)).
  simpl. by rewrite Hv.
Qed.

(** C7: [date_entered] is the first six characters of the text under
    ["008"] in the first element of [fields] that has the key; the text
    is not measured before it is cut, so a shorter one comes back whole;
    and [date_entered_date] returns nothing whenever the stripped
    [date_entered] text is not six characters long. *)
Theorem date_entered_first_six (self : VuFindMarcParser.t) :
  (∀ (fr m : gmap string pyval) (pre post : list pyval) (s : string),
     VuFindMarcParser.fullrecord self = PDict fr →
     fr !! "fields" = Some (PList (pre ++ PDict m :: post)) →
     Forall (λ e, py_contains "008" e = Ok false) pre →
     m !! "008" = Some (PStr s) →
     VuFindMarcParser.date_entered self = Ok (PStr (str_take 6 s))
     ∧ String.prefix (str_take 6 s) s = true
     ∧ String.length (str_take 6 s) = (6 `min` String.length s)%nat
     ∧ ((String.length s ≤ 6)%nat →
        VuFindMarcParser.date_entered self = Ok (PStr s)))
  ∧ (∀ t : string,
       VuFindMarcParser.date_entered self = Ok (PStr t) →
       String.length (strip t) ≠ 6%nat →
       VuFindMarcParser.date_entered_date self = Ok PNone).
Proof.
  split.
  - intros fr m pre post s Hfr Hfields Hpre Hs.
    rewrite (date_entered_at _ _ _ _ _ _ Hfr Hfields Hpre Hs).
    unfold py_slice_to.
    split; [reflexivity|]. split; [apply str_take_prefix|].
    split; [apply str_take_length|].
    intros Hlen. by rewrite str_take_short.
  - intros t Hde Hlen. unfold VuFindMarcParser.date_entered_date.
    rewrite Hde. simpl. by rewrite bool_decide_eq_false_2.
Qed.

End marc_contract.

(** C10 as stated fails when the entry holds [None], which is not text:
    the accessor returns nothing instead of raising. *)
Lemma latest_transaction_none_gives_absent :
  let self :=
    VuFindMarcParser.mk
      (PDict {[ "fields" := PList [PDict {[ "005" := PNone ]}] ]}) in
  VuFindMarcParser.latest_transaction self = Ok PNone
  ∧ type PNone ≠ TStr
  ∧ VuFindMarcParser.latest_transaction_datetime (lib := FixedWidth.lib) self
    = Ok PNone.
Proof. repeat split; try (vm_compute; reflexivity). discriminate. Qed.

(** A number under ["005"] does raise. *)
Example latest_transaction_number_raises :
  VuFindMarcParser.latest_transaction_datetime (lib := FixedWidth.lib)
    (VuFindMarcParser.mk
       (PDict {[ "fields" := PList [PDict {[ "005" := PInt 20230501 ]}] ]}))
  = Raise TypeError.
Proof. vm_compute. reflexivity. Qed.

(** The short ["008"] value of the interface description. *)
Example date_entered_short :
  let self :=
    VuFindMarcParser.mk
      (PDict {[ "fields" := PList [PDict {[ "008" := PStr "2305" ]}] ]}) in
  VuFindMarcParser.date_entered (lib := FixedWidth.lib) self
  = Ok (PStr "2305")
  ∧ VuFindMarcParser.date_entered_date (lib := FixedWidth.lib) self
    = Ok PNone.
Proof. split; vm_compute; reflexivity. Qed.

(* ================================================================== *)
(** ** The theorems at concrete documents *)

Lemma marc_accessors_absent_without_fields_witness :
  let self :=
    VuFindMarcParser.mk (PList [PDict {[ "005" := PStr "20230501123045.0" ]}])
  in
  let other := VuFindMarcParser.mk (PDict {[ "fields" := PNone ]}) in
  (VuFindMarcParser.fields self = Ok PNone
   ∧ VuFindMarcParser.latest_transaction self = Ok PNone
   ∧ VuFindMarcParser.latest_transaction_datetime (lib := FixedWidth.lib)
       self = Ok PNone
   ∧ VuFindMarcParser.latest_transaction_iso (lib := FixedWidth.lib) self
     = Ok PNone
   ∧ VuFindMarcParser.date_entered (lib := FixedWidth.lib) self = Ok PNone
   ∧ VuFindMarcParser.date_entered_date (lib := FixedWidth.lib) self
     = Ok PNone
   ∧ VuFindMarcParser.date_entered_iso (lib := FixedWidth.lib) self
     = Ok PNone)
  ∧ (VuFindMarcParser.fields other = Ok PNone
     ∧ VuFindMarcParser.latest_transaction other = Ok PNone
     ∧ VuFindMarcParser.latest_transaction_datetime (lib := FixedWidth.lib)
         other = Ok PNone
     ∧ VuFindMarcParser.latest_transaction_iso (lib := FixedWidth.lib) other
       = Ok PNone
     ∧ VuFindMarcParser.date_entered (lib := FixedWidth.lib) other
       = Ok PNone
     ∧ VuFindMarcParser.date_entered_date (lib := FixedWidth.lib) other
       = Ok PNone
     ∧ VuFindMarcParser.date_entered_iso (lib := FixedWidth.lib) other
       = Ok PNone)
  ∧ VuFindMarcParser.fields
      (VuFindMarcParser.mk (PDict {[ "fields" := PStr "n/a" ]}))
    = Ok (PStr "n/a").
Proof.
  intros self other. split; [|split].
  - apply (proj1 (marc_accessors_absent_without_fields
                    (lib := FixedWidth.lib) self)).
    left. discriminate.
  - apply (proj1 (marc_accessors_absent_without_fields
                    (lib := FixedWidth.lib) other)).
    right. exists {[ "fields" := PNone ]}. split; [reflexivity|].
    right. reflexivity.
  - apply (proj2 (proj2 (marc_accessors_absent_without_fields
                           (lib := FixedWidth.lib)
                           (VuFindMarcParser.mk
                              (PDict {[ "fields" := PStr "n/a" ]}))))
             {[ "fields" := PStr "n/a" ]} (PStr "n/a"));
      reflexivity.
Defined.

Lemma first_indexed_datetime_reads_last_indexed_witness :
  let self :=
    VuFindParser.mk
      (PDict (<[ "first_indexed" := PStr "2020-01-01T00:00:00Z" ]>
              {[ "last_indexed" := PStr "2023-05-01T12:00:00Z" ]}))
      ["first_indexed"; "last_indexed"] None in
  let instant := mkdatetime (mkdate 2023 5 1) 12 0 0 0 (Some 0) in
  VuFindParser.first_indexed_datetime (lib := FixedWidth.lib) self
  = Ok (PDateTime instant)
  ∧ VuFindParser.last_indexed_datetime (lib := FixedWidth.lib) self
    = Ok (PDateTime instant).
Proof.
  intros self instant.
  apply (proj1 (proj2
           (first_indexed_datetime_reads_last_indexed
              (lib := FixedWidth.lib) self))
           (<[ "first_indexed" := PStr "2020-01-01T00:00:00Z" ]>
            {[ "last_indexed" := PStr "2023-05-01T12:00:00Z" ]})
           "2023-05-01T12:00:00Z" instant);
    vm_compute; reflexivity.
Defined.

Lemma indexed_datetime_propagates_parse_error_witness :
  let self :=
    VuFindParser.mk (PDict {[ "last_indexed" := PStr "not-a-date" ]})
      ["last_indexed"] None in
  VuFindParser.last_indexed_datetime (lib := FixedWidth.lib) self
  = Raise ValueError
  ∧ VuFindParser.first_indexed_datetime (lib := FixedWidth.lib) self
    = Raise ValueError.
Proof.
  intros self.
  apply (proj1 (indexed_datetime_propagates_parse_error
                  (lib := FixedWidth.lib) self
                  {[ "last_indexed" := PStr "not-a-date" ]} eq_refl)
           "not-a-date" ValueError);
    [vm_compute; reflexivity | discriminate | vm_compute; reflexivity].
Defined.

Lemma latest_transaction_datetime_swallows_value_error_witness :
  VuFindMarcParser.latest_transaction_datetime (lib := FixedWidth.lib)
    (VuFindMarcParser.mk
       (PDict {[ "fields" := PList [PDict {[ "005" := PStr "2023-05" ]}] ]}))
  = Ok PNone
  ∧ VuFindMarcParser.latest_transaction_datetime (lib := FixedWidth.lib)
      (VuFindMarcParser.mk marc_sample)
    = Ok (PDateTime (mkdatetime (mkdate 2023 5 1) 12 30 45 0 None)).
Proof.
  split.
  - apply (proj1 (proj2 (proj2
             (latest_transaction_datetime_swallows_value_error
                (lib := FixedWidth.lib) _))) "2023-05");
      vm_compute; reflexivity.
  - apply (proj1 (proj2
             (latest_transaction_datetime_swallows_value_error
                (lib := FixedWidth.lib) _)) "20230501123045.0");
      vm_compute; reflexivity.
Defined.

Lemma latest_transaction_datetime_type_error_witness :
  let self :=
    VuFindMarcParser.mk
      (PDict {[ "fields" :=
         PList [ PDict {[ "008" := PStr "230501" ]};
                 PDict {[ "005" := PList [PStr "20230501123045.0"] ]} ] ]}) in
  VuFindMarcParser.latest_transaction_datetime (lib := FixedWidth.lib) self
  = Raise TypeError.
Proof.
  intros self.
  refine (proj1 (latest_transaction_datetime_type_error
                   (lib := FixedWidth.lib) self
                   {[ "fields" :=
                      PList [ PDict {[ "008" := PStr "230501" ]};
                              PDict {[ "005" :=
                                PList [PStr "20230501123045.0"] ]} ] ]}
                   {[ "005" := PList [PStr "20230501123045.0"] ]}
                   [PDict {[ "008" := PStr "230501" ]}] []
                   (PList [PStr "20230501123045.0"]) _ _ _ _ _) _);
    try discriminate; try (vm_compute; reflexivity).
  repeat constructor.
Defined.

Lemma date_entered_first_six_witness :
  let self :=
    VuFindMarcParser.mk
      (PDict {[ "fields" :=
         PList [ PDict {[ "005" := PStr "20230501123045.0" ]};
                 PDict {[ "008" := PStr "2305" ]} ] ]}) in
  VuFindMarcParser.date_entered (lib := FixedWidth.lib) self
  = Ok (PStr "2305")
  ∧ VuFindMarcParser.date_entered_date (lib := FixedWidth.lib) self
    = Ok PNone.
Proof.
  intros self. split.
  - refine (proj2 (proj2 (proj2
              (proj1 (date_entered_first_six (lib := FixedWidth.lib) self)
                 {[ "fields" :=
                    PList [ PDict {[ "005" := PStr "20230501123045.0" ]};
                            PDict {[ "008" := PStr "2305" ]} ] ]}
                 {[ "008" := PStr "2305" ]}
                 [PDict {[ "005" := PStr "20230501123045.0" ]}] [] "2305"
                 _ _ _ _))) _);
      try (vm_compute; reflexivity); [repeat constructor | simpl; lia].
  - apply (proj2 (date_entered_first_six (lib := FixedWidth.lib) self)
             "2305"); [vm_compute; reflexivity | simpl; lia].
Defined.

(* ================================================================== *)
(** * Further properties of the accessors *)

(** ** Order of texts *)

Lemma str_leb_trans (s1 s2 s3 : string) :
  String.leb s1 s2 = true → String.leb s2 s3 = true →
  String.leb s1 s3 = true.
Proof.
  unfold String.leb. revert s2 s3.
  induction s1 as [|c1 s1 IH]; intros [|c2 s2] [|c3 s3]; simpl; try done.
  unfold Ascii.compare.
  destruct (N.compare_spec (N_of_ascii c1) (N_of_ascii c2)) as [E12|L12|G12];
  destruct (N.compare_spec (N_of_ascii c2) (N_of_ascii c3)) as [E23|L23|G23];
  try done.
  - rewrite E12, E23, N.compare_refl. apply IH.
  - rewrite E12. intros _ _. by rewrite (proj2 (N.compare_lt_iff _ _) L23).
  - rewrite <- E23. intros _ _. by rewrite (proj2 (N.compare_lt_iff _ _) L12).
  - intros _ _. rewrite (proj2 (N.compare_lt_iff _ _)); [done | lia].
Qed.

#[local] Instance str_le_trans : Transitive str_le.
Proof.
  intros a b c Hab Hbc. unfold str_le in *.
  apply Is_true_true. apply Is_true_true in Hab, Hbc.
  by apply (str_leb_trans a b c).
Qed.

#[local] Instance str_le_total : Total str_le.
Proof.
  intros a b. unfold str_le.
  destruct (String.leb_total a b) as [H|H]; [left|right];
    by apply Is_true_true.
Qed.

(** ** What a successful construction leaves behind *)

Lemma init_inv (doc : pyval) (with_marc : bool) (self : VuFindParser.t) :
  VuFindParser.__init__ doc with_marc = Ok self →
  VuFindParser.raw self = doc
  ∧ VuFindParser._names (VuFindParser.mk doc [] None)
    = Ok (VuFindParser.fields self)
  ∧ (if with_marc
     then ∃ mp, VuFindMarcParser.__init__ doc = Ok mp
                ∧ VuFindParser.marc self = Some mp
     else VuFindParser.marc self = None).
Proof.
  unfold VuFindParser.__init__.
  destruct (VuFindParser._names _) as [names|e]; simpl; [|discriminate].
  destruct with_marc.
  - destruct (VuFindMarcParser.__init__ doc) as [mp|e]; simpl;
      [|discriminate].
    intros [= <-]. simpl. eauto.
  - intros [= <-]. simpl. eauto.
Qed.

Lemma names_of_mapping (self : VuFindParser.t) (m : gmap string pyval) :
  VuFindParser.raw self = PDict m →
  VuFindParser._names self = Ok (sort_names (map_to_list m).*1).
Proof.
  intros Hraw. unfold VuFindParser._names. rewrite Hraw. simpl.
  destruct (decide (m = ∅)) as [->|Hne].
  - rewrite bool_decide_eq_true_2 by done. simpl.
    by rewrite map_to_list_empty.
  - by rewrite bool_decide_eq_false_2 by done.
Qed.

(** A successful construction means the stored document is falsy or a
    mapping. *)
Lemma init_raw_shape (doc : pyval) (with_marc : bool)
    (self : VuFindParser.t) :
  VuFindParser.__init__ doc with_marc = Ok self →
  truthy (VuFindParser.raw self) = false
  ∨ is_mapping (VuFindParser.raw self) = true.
Proof.
  intros Hinit. destruct (init_inv _ _ _ Hinit) as (-> & Hnames & _).
  unfold VuFindParser._names in Hnames. simpl in Hnames.
  destruct (truthy doc) eqn:Ht; [right | by left].
  by destruct doc.
Qed.

Lemma field_of_mapping (self : VuFindParser.t) (name : string) :
  is_mapping (VuFindParser.raw self) = true →
  ∃ m, (VuFindParser.raw self = PDict m
        ∨ ∃ cls, VuFindParser.raw self = PDictSub cls m)
       ∧ VuFindParser._field self name = Ok (default PNone (m !! name)).
Proof.
  unfold VuFindParser._field.
  destruct (VuFindParser.raw self) as [| | | | |m|cls m| |] eqn:Hraw;
    try discriminate; intros _; exists m; (split; [eauto|]); simpl;
    (destruct (decide (m = ∅)) as [->|Hne];
     [ rewrite bool_decide_eq_true_2 by done; simpl; by rewrite lookup_empty
     | rewrite bool_decide_eq_false_2 by done; simpl;
       destruct (m !! name) as [x|] eqn:Hk;
       [ rewrite bool_decide_eq_true_2 by eauto; reflexivity
       | rewrite bool_decide_eq_false_2; [done|]; by intros [? ?] ] ]).
Qed.

(** ** The listed field names *)

(** For a mapping document the names listed at construction are the keys
    of the document, each once, in ascending order. *)
Theorem names_sorted_keys (m : gmap string pyval) (with_marc : bool)
    (self : VuFindParser.t) :
  VuFindParser.__init__ (PDict m) with_marc = Ok self →
  StronglySorted str_le (VuFindParser.fields self)
  ∧ NoDup (VuFindParser.fields self)
  ∧ (∀ name, name ∈ VuFindParser.fields self ↔ is_Some (m !! name))
  ∧ length (VuFindParser.fields self) = size m.
Proof.
  intros Hinit. destruct (init_inv _ _ _ Hinit) as (_ & Hnames & _).
  rewrite (names_of_mapping (VuFindParser.mk _ _ _) m eq_refl) in Hnames.
  injection Hnames as <-. unfold sort_names.
  split; [apply StronglySorted_merge_sort; apply _|].
  split; [|split].
  - rewrite merge_sort_Permutation. apply NoDup_fst_map_to_list.
  - intros name. rewrite merge_sort_Permutation.
    rewrite list_elem_of_fmap. split.
    + intros ([k v] & -> & Hin). apply elem_of_map_to_list in Hin.
      simpl. eauto.
    + intros [v Hv]. exists (name, v). split; [done|].
      by apply elem_of_map_to_list.
  - rewrite merge_sort_Permutation, length_fmap. apply length_map_to_list.
Qed.

Lemma names_sorted_keys_witness :
  let m : gmap string pyval :=
    <[ "title" := PList [PStr "A title"] ]> {[ "id" := PStr "rec1" ]} in
  StronglySorted str_le ["id"; "title"]
  ∧ NoDup ["id"; "title"]
  ∧ (∀ name, name ∈ ["id"; "title"] ↔ is_Some (m !! name))
  ∧ length ["id"; "title"] = size m.
Proof.
  intros m.
  apply (names_sorted_keys m false
           (VuFindParser.mk (PDict m) ["id"; "title"] None)).
  vm_compute. reflexivity.
Defined.

(** ** Plain lookups never fail *)

(** On every accessor that construction returned, [get] (and with it every
    plain field accessor) returns a value for every name and never raises;
    for a mapping document it is the stored value, or nothing when the key
    is missing. *)
Theorem get_total_after_init (doc : pyval) (with_marc : bool)
    (self : VuFindParser.t) (name : string) :
  VuFindParser.__init__ doc with_marc = Ok self →
  (∃ v, VuFindParser.get self name = Ok v)
  ∧ (∀ m, doc = PDict m →
          VuFindParser.get self name = Ok (default PNone (m !! name)))
  ∧ (truthy doc = false → VuFindParser.get self name = Ok PNone).
Proof.
  intros Hinit. pose proof (init_raw_shape _ _ _ Hinit) as Hshape.
  destruct (init_inv _ _ _ Hinit) as (Hraw & _ & _).
  unfold VuFindParser.get. split; [|split].
  - destruct Hshape as [Hfalsy|Hmap].
    + rewrite (field_falsy _ _ Hfalsy). eauto.
    + destruct (field_of_mapping self name Hmap) as (m & _ & ->). eauto.
  - intros m ->. by apply field_dict.
  - intros Hfalsy. apply field_falsy. by rewrite Hraw.
Qed.

Lemma get_total_after_init_witness :
  let m : gmap string pyval := {[ "id" := PStr "rec1" ]} in
  (∃ v, VuFindParser.get (VuFindParser.mk (PDict m) ["id"] None) "isbn"
        = Ok v)
  ∧ (∀ m', PDict m = PDict m' →
       VuFindParser.get (VuFindParser.mk (PDict m) ["id"] None) "isbn"
       = Ok (default PNone (m' !! "isbn")))
  ∧ (truthy (PDict m) = false →
     VuFindParser.get (VuFindParser.mk (PDict m) ["id"] None) "isbn"
     = Ok PNone).
Proof.
  intros m.
  apply (get_total_after_init (PDict m) false
           (VuFindParser.mk (PDict m) ["id"] None) "isbn").
  vm_compute. reflexivity.
Defined.

(** ** When construction succeeds *)

(** Construction succeeds exactly on mappings and, among the other values,
    on the falsy ones, provided that either MARC parsing is not requested
    or the value is an empty text or an empty list (the only falsy
    non-mappings that support the membership test of the MARC
    constructor). *)
Theorem init_succeeds_iff (doc : pyval) (with_marc : bool) :
  (∃ self, VuFindParser.__init__ doc with_marc = Ok self)
  ↔ is_mapping doc = true
    ∨ (truthy doc = false
       ∧ (with_marc = false ∨ doc = PStr "" ∨ doc = PList [])).
Proof.
  split.
  - intros [self Hinit].
    destruct (init_inv _ _ _ Hinit) as (Hraw & _ & Hmarc).
    destruct (init_raw_shape _ _ _ Hinit) as [Hfalsy|Hmap];
      rewrite Hraw in *; [|by left].
    destruct (is_mapping doc) eqn:Hm; [by left|]. right.
    split; [done|]. destruct with_marc; [|by left]. right.
    destruct Hmarc as (mp & Hmp & _).
    destruct doc as [| | |s|l| | | |]; try discriminate.
    + destruct s; [by left | discriminate].
    + destruct l; [by right | discriminate].
  - intros [Hmap|[Hfalsy Hcase]].
    + destruct doc as [| | | | |m|cls m| |]; try discriminate.
      * destruct (init_mapping m with_marc) as (self & H & _). eauto.
      * unfold VuFindParser.__init__, VuFindParser._names. simpl.
        destruct (negb (bool_decide (m = ∅))); simpl;
          (destruct with_marc; [|eauto]);
          unfold VuFindMarcParser.__init__; simpl;
          destruct (bool_decide (is_Some (m !! "fullrecord"))) eqn:Hb;
          simpl; eauto;
          apply bool_decide_eq_true_1 in Hb; destruct Hb as [x Hx];
          rewrite Hx; simpl; eauto.
    + unfold VuFindParser.__init__, VuFindParser._names. simpl.
      rewrite Hfalsy. simpl.
      destruct Hcase as [->|[->| ->]]; simpl; eauto;
        destruct with_marc; simpl; eauto.
Qed.

Lemma init_succeeds_iff_witness :
  (∃ self, VuFindParser.__init__ (PStr "") true = Ok self)
  ∧ ¬ (∃ self, VuFindParser.__init__ (PInt 0) true = Ok self).
Proof.
  split.
  - apply (proj2 (init_succeeds_iff (PStr "") true)).
    right. split; [reflexivity|]. right. by left.
  - intros Hex. apply (proj1 (init_succeeds_iff (PInt 0) true)) in Hex.
    destruct Hex as [Hmap|[_ [Hflag|[Hdoc|Hdoc]]]]; discriminate.
Defined.

(* ================================================================== *)
(** ** First element and joined elements of a field *)

(** [_field_first]: nothing for a missing key and for an empty list, the
    first element of a non-empty list, the first character of a non-empty
    text; a non-zero number has no length ([TypeError]) and a non-empty
    mapping has no key [0] ([KeyError]). *)
Theorem field_first_cases (self : VuFindParser.t) (m : gmap string pyval)
    (name : string) :
  VuFindParser.raw self = PDict m →
  (m !! name = None → VuFindParser._field_first self name = Ok PNone)
  ∧ (m !! name = Some (PList []) →
     VuFindParser._field_first self name = Ok PNone)
  ∧ (∀ x l, m !! name = Some (PList (x :: l)) →
            VuFindParser._field_first self name = Ok x)
  ∧ (∀ c s, m !! name = Some (PStr (String c s)) →
            VuFindParser._field_first self name
            = Ok (PStr (String c EmptyString)))
  ∧ (∀ z, z ≠ 0 → m !! name = Some (PInt z) →
          VuFindParser._field_first self name = Raise TypeError)
  ∧ (∀ m' : gmap string pyval, m' ≠ ∅ → m !! name = Some (PDict m') →
          VuFindParser._field_first self name = Raise KeyError).
Proof.
  intros Hraw. unfold VuFindParser._field_first.
  rewrite (field_dict _ _ _ Hraw).
  repeat split.
  - by intros ->.
  - by intros ->.
  - by intros x l ->.
  - by intros c s ->.
  - intros z Hz ->. simpl. by destruct (Z.eqb_spec z 0).
  - intros m' Hne ->. simpl.
    rewrite bool_decide_eq_false_2 by done. simpl.
    rewrite bool_decide_eq_true_2; [done|].
    apply map_size_non_empty_iff in Hne. lia.
Qed.

Lemma field_first_cases_witness :
  let m : gmap string pyval :=
    {[ "title" := PList [PStr "A title"; PStr "Another"] ]} in
  VuFindParser._field_first (VuFindParser.mk (PDict m) ["title"] None)
    "title"
  = Ok (PStr "A title").
Proof.
  intros m.
  apply (proj1 (proj2 (proj2
           (field_first_cases (VuFindParser.mk (PDict m) ["title"] None)
              m "title" eq_refl)))
           (PStr "A title") [PStr "Another"]).
  vm_compute. reflexivity.
Defined.



#[local] Arguments str_join : simpl never.



(** Two [dict] values with the same entries, inserted in different orders,
    are joined differently. *)
Example field_joined_mapping_orders :
  let m : gmap string pyval :=
    {[ "x" := PDict (<[ "a" := PInt 2 ]> {[ "b" := PInt 1 ]}) ]} in
  let self := VuFindParser.mk (PDict m) ["x"] None in
  VuFindParser._field_joined self "x" "|" ["b"; "a"] = Ok (PStr "b|a")
  ∧ VuFindParser._field_joined self "x" "|" ["a"; "b"] = Ok (PStr "a|b").
Proof. split; vm_compute; reflexivity. Qed.

(* ================================================================== *)
(** ** Construction of the MARC accessor *)

(** [VuFindMarcParser.__init__] never fails on a mapping: it stores the
    ["fullrecord"] entry when there is one and nothing otherwise, so what
    was put under ["fullrecord"] is what the accessor holds; on a value
    that has no membership test (nothing, a truth value, a number) it
    raises [TypeError]. *)
Theorem marc_init_stores_fullrecord :
  (∀ (m : gmap string pyval) (v : pyval),
     VuFindMarcParser.__init__ (PDict (<[ "fullrecord" := v ]> m))
     = Ok (VuFindMarcParser.mk v))
  ∧ (∀ m : gmap string pyval,
       VuFindMarcParser.__init__ (PDict (delete "fullrecord" m))
       = Ok (VuFindMarcParser.mk PNone))
  ∧ (∀ m : gmap string pyval,
       VuFindMarcParser.__init__ (PDict m)
       = Ok (VuFindMarcParser.mk (default PNone (m !! "fullrecord"))))
  ∧ (∀ doc, type doc = TNoneType ∨ type doc = TBool ∨ type doc = TInt →
            VuFindMarcParser.__init__ doc = Raise TypeError).
Proof.
  repeat split.
  - intros m v. by rewrite marc_init_mapping, lookup_insert_eq.
  - intros m. by rewrite marc_init_mapping, lookup_delete_eq.
  - apply marc_init_mapping.
  - intros doc Hty. destruct doc; try reflexivity;
      destruct Hty as [Hty|[Hty|Hty]]; discriminate.
Qed.

Lemma marc_init_stores_fullrecord_witness :
  VuFindMarcParser.__init__ (PInt 7) = Raise TypeError.
Proof.
  apply (proj2 (proj2 (proj2 marc_init_stores_fullrecord)) (PInt 7)).
  right. right. reflexivity.
Defined.

(* ================================================================== *)
(** ** The MARC accessors of [VuFindParser] *)

Section marc_passthrough.
Context `{lib : DateLib}.

(** Without MARC parsing requested, the six [marc_*] accessors return
    nothing and never raise, whatever the document holds under
    ["fullrecord"]. *)
Theorem marc_accessors_absent_when_not_requested (doc : pyval)
    (self : VuFindParser.t) :
  VuFindParser.__init__ doc false = Ok self →
  VuFindParser.marc_latest_transaction self = Ok PNone
  ∧ VuFindParser.marc_latest_transaction_datetime self = Ok PNone
  ∧ VuFindParser.marc_latest_transaction_iso self = Ok PNone
  ∧ VuFindParser.marc_date_entered self = Ok PNone
  ∧ VuFindParser.marc_date_entered_date self = Ok PNone
  ∧ VuFindParser.marc_date_entered_iso self = Ok PNone.
Proof.
  intros Hinit. destruct (init_inv _ _ _ Hinit) as (_ & _ & Hmarc).
  unfold VuFindParser.marc_latest_transaction,
    VuFindParser.marc_latest_transaction_datetime,
    VuFindParser.marc_latest_transaction_iso,
    VuFindParser.marc_date_entered, VuFindParser.marc_date_entered_date,
    VuFindParser.marc_date_entered_iso.
  rewrite Hmarc. repeat split.
Qed.

(** With MARC parsing requested on a mapping document, the MARC accessor
    holds exactly the value that the [fullrecord] accessor returns, and
    each [marc_*] accessor is the accessor of the same purpose on it. *)
Theorem marc_accessors_delegate (m : gmap string pyval)
    (self : VuFindParser.t) :
  VuFindParser.__init__ (PDict m) true = Ok self →
  ∃ fr mp,
    VuFindParser.fullrecord self = Ok fr
    ∧ mp = VuFindMarcParser.mk fr
    ∧ VuFindParser.marc self = Some mp
    ∧ VuFindParser.marc_latest_transaction self
      = VuFindMarcParser.latest_transaction mp
    ∧ VuFindParser.marc_latest_transaction_datetime self
      = VuFindMarcParser.latest_transaction_datetime mp
    ∧ VuFindParser.marc_latest_transaction_iso self
      = VuFindMarcParser.latest_transaction_iso mp
    ∧ VuFindParser.marc_date_entered self
      = VuFindMarcParser.date_entered mp
    ∧ VuFindParser.marc_date_entered_date self
      = VuFindMarcParser.date_entered_date mp
    ∧ VuFindParser.marc_date_entered_iso self
      = VuFindMarcParser.date_entered_iso mp.
Proof.
  intros Hinit. destruct (init_inv _ _ _ Hinit) as (Hraw & _ & Hmarc).
  destruct Hmarc as (mp & Hmp & Hmarc).
  rewrite marc_init_mapping in Hmp. injection Hmp as <-.
  exists (default PNone (m !! "fullrecord")), 
    (VuFindMarcParser.mk (default PNone (m !! "fullrecord"))).
  unfold VuFindParser.fullrecord. rewrite (field_dict _ _ _ Hraw).
  unfold VuFindParser.marc_latest_transaction,
    VuFindParser.marc_latest_transaction_datetime,
    VuFindParser.marc_latest_transaction_iso,
    VuFindParser.marc_date_entered, VuFindParser.marc_date_entered_date,
    VuFindParser.marc_date_entered_iso.
  rewrite Hmarc. repeat split.
Qed.

End marc_passthrough.

Lemma marc_accessors_absent_when_not_requested_witness :
  let doc := PDict {[ "fullrecord" := PDict {[ "fields" := PInt 5 ]} ]} in
  let self := VuFindParser.mk doc ["fullrecord"] None in
  VuFindParser.marc_latest_transaction self = Ok PNone
  ∧ VuFindParser.marc_latest_transaction_datetime (lib := FixedWidth.lib)
      self = Ok PNone
  ∧ VuFindParser.marc_latest_transaction_iso (lib := FixedWidth.lib) self
    = Ok PNone
  ∧ VuFindParser.marc_date_entered (lib := FixedWidth.lib) self = Ok PNone
  ∧ VuFindParser.marc_date_entered_date (lib := FixedWidth.lib) self
    = Ok PNone
  ∧ VuFindParser.marc_date_entered_iso (lib := FixedWidth.lib) self
    = Ok PNone.
Proof.
  intros doc self.
  apply (marc_accessors_absent_when_not_requested (lib := FixedWidth.lib)
           doc self).
  vm_compute. reflexivity.
Defined.

Lemma marc_accessors_delegate_witness :
  let m : gmap string pyval := {[ "fullrecord" := marc_sample ]} in
  let self :=
    VuFindParser.mk (PDict m) ["fullrecord"]
      (Some (VuFindMarcParser.mk marc_sample)) in
  ∃ fr mp,
    VuFindParser.fullrecord self = Ok fr
    ∧ mp = VuFindMarcParser.mk fr
    ∧ VuFindParser.marc self = Some mp
    ∧ VuFindParser.marc_latest_transaction self
      = VuFindMarcParser.latest_transaction mp
    ∧ VuFindParser.marc_latest_transaction_datetime (lib := FixedWidth.lib)
        self
      = VuFindMarcParser.latest_transaction_datetime (lib := FixedWidth.lib) mp
    ∧ VuFindParser.marc_latest_transaction_iso (lib := FixedWidth.lib) self
      = VuFindMarcParser.latest_transaction_iso (lib := FixedWidth.lib) mp
    ∧ VuFindParser.marc_date_entered (lib := FixedWidth.lib) self
      = VuFindMarcParser.date_entered (lib := FixedWidth.lib) mp
    ∧ VuFindParser.marc_date_entered_date (lib := FixedWidth.lib) self
      = VuFindMarcParser.date_entered_date (lib := FixedWidth.lib) mp
    ∧ VuFindParser.marc_date_entered_iso (lib := FixedWidth.lib) self
      = VuFindMarcParser.date_entered_iso (lib := FixedWidth.lib) mp.
Proof.
  intros m self.
  apply (marc_accessors_delegate (lib := FixedWidth.lib) m self).
  vm_compute. reflexivity.
Defined.

(* ================================================================== *)
(** ** Scanning the MARC fields *)

Lemma contains_raise (key : string) (v : pyval) (e : exn) :
  py_contains key v = Raise e → e = TypeError.
Proof. destruct v; simpl; congruence. Qed.

Lemma getitem_after_contains (key : string) (v : pyval) (e : exn) :
  py_contains key v = Ok true → py_getitem v key = Raise e → e = TypeError.
Proof.
  destruct v; simpl; try congruence;
    intros [= Hin]; apply bool_decide_eq_true_1 in Hin;
    destruct Hin as [x ->]; discriminate.
Qed.

(** The loop raises only what the membership test or the getter raise. *)
Lemma scan_raise (P : exn → Prop) (tag : string)
    (get : pyval → result pyval) (elements : list pyval) (e : exn) :
  P TypeError →
  (∀ field e', py_contains tag field = Ok true →
               get field = Raise e' → P e') →
  VuFindMarcParser.scan tag get elements = Raise e → P e.
Proof.
  intros Hty Hget. induction elements as [|field rest IH]; simpl;
    [discriminate|].
  destruct (py_contains tag field) as [[|]|e'] eqn:Hc; simpl.
  - by apply Hget.
  - apply IH.
  - intros [= <-]. by rewrite (contains_raise _ _ _ Hc).
Qed.

(** A value the loop returns is nothing or comes from the getter. *)
Lemma scan_ok (tag : string) (get : pyval → result pyval)
    (elements : list pyval) (r : pyval) :
  VuFindMarcParser.scan tag get elements = Ok r →
  r = PNone ∨ ∃ field, field ∈ elements ∧ get field = Ok r.
Proof.
  induction elements as [|field rest IH]; simpl.
  - intros [= <-]. by left.
  - destruct (py_contains tag field) as [[|]|e'] eqn:Hc; simpl;
      [| |discriminate].
    + intros Hget. right. exists field. split; [apply list_elem_of_here|done].
    + intros Hrest. destruct (IH Hrest) as [->|(f & Hin & Hf)]; [by left|].
      right. exists f. split; [by apply list_elem_of_further|done].
Qed.

Lemma tag_not_in_char (tag : string) (c : ascii) :
  (2 ≤ String.length tag)%nat →
  str_contains tag (String c EmptyString) = false.
Proof.
  destruct tag as [|a [|b tag]]; simpl; try lia. intros _.
  by destruct (ascii_dec a c).
Qed.

Lemma scan_over_chars (tag : string) (get : pyval → result pyval)
    (s : string) :
  (2 ≤ String.length tag)%nat →
  VuFindMarcParser.scan tag get
    ((λ c, PStr (String c EmptyString)) <$> String.list_ascii_of_string s)
  = Ok PNone.
Proof.
  intros Htag. induction s as [|c s IH]; [reflexivity|].
  change (String.list_ascii_of_string (String c s))
    with (c :: String.list_ascii_of_string s).
  rewrite fmap_cons.
  change (VuFindMarcParser.scan tag get (?x :: ?l))
    with (b ← py_contains tag x;
          if b : bool then get x else VuFindMarcParser.scan tag get l).
  change (py_contains tag (PStr (String c EmptyString)))
    with (Ok (str_contains tag (String c EmptyString))).
  rewrite (tag_not_in_char _ _ Htag). apply IH.
Qed.

Lemma latest_transaction_raise (self : VuFindMarcParser.t) (e : exn) :
  VuFindMarcParser.latest_transaction self = Raise e → e = TypeError.
Proof.
  unfold VuFindMarcParser.latest_transaction. rewrite marc_fields_eq.
  generalize (match VuFindMarcParser.fullrecord self with
              | PDict m => default PNone (m !! "fields")
              | _ => PNone
              end).
  intros f.
  assert (∀ elements,
            VuFindMarcParser.scan "005" (λ field, py_getitem field "005")
              elements = Raise e → e = TypeError) as Hscan.
  { intros elements. apply (scan_raise (λ e, e = TypeError)); [done|].
    intros field e' Hc Hg. by apply (getitem_after_contains "005" field). }
  destruct f; simpl; try discriminate; try apply Hscan; congruence.
Qed.

(** [latest_transaction] either returns a value or raises [TypeError]; it
    raises nothing else, in particular a membership test that succeeds on
    a mapping is never followed by a [KeyError]. *)
Theorem latest_transaction_only_type_error (self : VuFindMarcParser.t) :
  (∃ v, VuFindMarcParser.latest_transaction self = Ok v)
  ∨ VuFindMarcParser.latest_transaction self = Raise TypeError.
Proof.
  destruct (VuFindMarcParser.latest_transaction self) as [v|e] eqn:Hlt.
  - left. eauto.
  - right. by rewrite (latest_transaction_raise _ _ Hlt).
Qed.

(** When the ["fields"] entry is itself a mapping (tags as keys, not a
    list of one-tag mappings), the loop runs over its keys:
    [latest_transaction] raises [TypeError] when some key contains [005],
    for instance the key ["005"] itself, and returns nothing otherwise. *)
Theorem latest_transaction_fields_mapping (self : VuFindMarcParser.t)
    (fr tags : gmap string pyval) :
  VuFindMarcParser.fullrecord self = PDict fr →
  fr !! "fields" = Some (PDict tags) →
  ((∃ k, is_Some (tags !! k) ∧ str_contains "005" k = true) →
   VuFindMarcParser.latest_transaction self = Raise TypeError)
  ∧ ((∀ k, is_Some (tags !! k) → str_contains "005" k = false) →
     VuFindMarcParser.latest_transaction self = Ok PNone).
Proof.
  intros Hfr Hfields.
  assert (VuFindMarcParser.latest_transaction self
          = if existsb (str_contains "005") (map_to_list tags).*1
            then Raise TypeError else Ok PNone) as ->.
  { unfold VuFindMarcParser.latest_transaction.
    rewrite marc_fields_eq, Hfr, Hfields. simpl.
    by apply scan_over_texts. }
  split.
  - intros (k & [v Hk] & Hin).
    replace (existsb _ _) with true; [done|]. symmetry.
    apply existsb_exists. exists k. split; [|done].
    apply list_elem_of_In, list_elem_of_fmap. exists (k, v).
    split; [done|]. by apply elem_of_map_to_list.
  - intros Hall.
    destruct (existsb _ _) eqn:Hex; [|done].
    apply existsb_exists in Hex. destruct Hex as (k & Hin & Hk).
    apply list_elem_of_In, list_elem_of_fmap in Hin.
    destruct Hin as ([k' v] & -> & Hin).
    apply elem_of_map_to_list in Hin. simpl in Hk.
    rewrite Hall in Hk; [discriminate | eauto].
Qed.

Lemma latest_transaction_fields_mapping_witness :
  let fr : gmap string pyval :=
    {[ "fields" := PDict {[ "005" := PStr "20230501123045.0" ]} ]} in
  VuFindMarcParser.latest_transaction (VuFindMarcParser.mk (PDict fr))
  = Raise TypeError.
Proof.
  intros fr.
  apply (proj1 (latest_transaction_fields_mapping
                  (VuFindMarcParser.mk (PDict fr)) fr
                  {[ "005" := PStr "20230501123045.0" ]}
                  eq_refl eq_refl)).
  exists "005". split; [by eexists | reflexivity].
Defined.

(** The first element of [fields] that does not plainly lack ["005"]
    decides the outcome, and the elements after it are not looked at: a
    mapping with the key gives its value; a text that has [005] as a
    substring, a list that has ["005"] as an element, and a value without
    a membership test (nothing, a truth value, a number) give
    [TypeError]. *)
Theorem latest_transaction_first_decisive (self : VuFindMarcParser.t)
    (fr : gmap string pyval) (pre post : list pyval) (hit : pyval) :
  VuFindMarcParser.fullrecord self = PDict fr →
  fr !! "fields" = Some (PList (pre ++ hit :: post)) →
  Forall (λ e, py_contains "005" e = Ok false) pre →
  (∀ m v, hit = PDict m → m !! "005" = Some v →
          VuFindMarcParser.latest_transaction self = Ok v)
  ∧ (∀ s, hit = PStr s → str_contains "005" s = true →
          VuFindMarcParser.latest_transaction self = Raise TypeError)
  ∧ (∀ l, hit = PList l → existsb (eq_str "005") l = true →
          VuFindMarcParser.latest_transaction self = Raise TypeError)
  ∧ (type hit = TNoneType ∨ type hit = TBool ∨ type hit = TInt →
     VuFindMarcParser.latest_transaction self = Raise TypeError).
Proof.
  intros Hfr Hfields Hpre.
  assert (VuFindMarcParser.latest_transaction self
          = VuFindMarcParser.scan "005" (λ field, py_getitem field "005")
              (pre ++ hit :: post)) as ->.
  { unfold VuFindMarcParser.latest_transaction.
    by rewrite marc_fields_eq, Hfr, Hfields. }
  repeat split.
  - intros m v -> Hv.
    rewrite (scan_first_hit _ _ _ _ _ Hpre (contains_dict _ _ _ Hv)).
    simpl. by rewrite Hv.
  - intros s -> Hs. rewrite scan_first_hit; [done|done|].
    simpl. by rewrite Hs.
  - intros l -> Hl. rewrite scan_first_hit; [done|done|].
    simpl. by rewrite Hl.
  - intros Hty. clear Hfields. induction Hpre as [|e pre He _ IH]; simpl.
    + destruct hit; try reflexivity;
        destruct Hty as [Hty|[Hty|Hty]]; discriminate.
    + by rewrite He.
Qed.

Lemma latest_transaction_first_decisive_witness :
  let fr : gmap string pyval :=
    {[ "fields" :=
       PList [ PDict {[ "001" := PStr "rec1" ]};
               PDict {[ "005" := PStr "20230501123045.0" ]};
               PInt 5;
               PDict {[ "005" := PStr "19990101000000.0" ]} ] ]} in
  VuFindMarcParser.latest_transaction (VuFindMarcParser.mk (PDict fr))
  = Ok (PStr "20230501123045.0").
Proof.
  intros fr.
  refine (proj1 (latest_transaction_first_decisive
                   (VuFindMarcParser.mk (PDict fr)) fr
                   [PDict {[ "001" := PStr "rec1" ]}]
                   [PInt 5; PDict {[ "005" := PStr "19990101000000.0" ]}]
                   (PDict {[ "005" := PStr "20230501123045.0" ]})
                   eq_refl _ _)
            {[ "005" := PStr "20230501123045.0" ]}
            (PStr "20230501123045.0") eq_refl _);
    try (vm_compute; reflexivity).
  repeat constructor.
Defined.

(* ================================================================== *)
(** ** Stripping *)

Lemma lstrip_length (s : string) :
  (String.length (lstrip s) ≤ String.length s)%nat
  ∧ (String.length (lstrip s) = String.length s → lstrip s = s).
Proof.
  induction s as [|c s [IHle IHeq]]; simpl; [done|].
  destruct (is_space c); simpl; [|done]. split; [lia|]. lia.
Qed.

Lemma rstrip_length (s : string) :
  (String.length (rstrip s) ≤ String.length s)%nat
  ∧ (String.length (rstrip s) = String.length s → rstrip s = s).
Proof.
  induction s as [|c s [IHle IHeq]]; simpl; [done|].
  destruct (rstrip s) as [|c' r] eqn:Hr.
  - destruct (is_space c); simpl in *; (split; [lia|]); try lia.
    intros Hlen. destruct s; [done|simpl in Hlen; lia].
  - simpl in *. split; [lia|]. intros Hlen. f_equal. apply IHeq. lia.
Qed.

(** Stripping never lengthens a text, and leaves its length unchanged only
    when there was nothing to strip. *)
Lemma strip_length (s : string) :
  (String.length (strip s) ≤ String.length s)%nat
  ∧ (String.length (strip s) = String.length s → strip s = s).
Proof.
  unfold strip.
  destruct (lstrip_length s) as [Hl1 Hl2].
  destruct (rstrip_length (lstrip s)) as [Hr1 Hr2].
  split; [lia|]. intros Hlen.
  rewrite Hr2 by lia. apply Hl2. lia.
Qed.

(* ================================================================== *)
(** ** Values and errors of the MARC date accessors *)

Section marc_dates.
Context `{lib : DateLib}.

(** When no element of the [fields] list contains the tag (the list may be
    empty), the accessors built on that tag return nothing. *)
Theorem marc_no_tagged_element (self : VuFindMarcParser.t)
    (fr : gmap string pyval) (elements : list pyval) :
  VuFindMarcParser.fullrecord self = PDict fr →
  fr !! "fields" = Some (PList elements) →
  (Forall (λ e, py_contains "005" e = Ok false) elements →
   VuFindMarcParser.latest_transaction self = Ok PNone
   ∧ VuFindMarcParser.latest_transaction_datetime self = Ok PNone
   ∧ VuFindMarcParser.latest_transaction_iso self = Ok PNone)
  ∧ (Forall (λ e, py_contains "008" e = Ok false) elements →
     VuFindMarcParser.date_entered self = Ok PNone
     ∧ VuFindMarcParser.date_entered_date self = Ok PNone
     ∧ VuFindMarcParser.date_entered_iso self = Ok PNone).
Proof.
  intros Hfr Hfields. split; intros Hno.
  - assert (VuFindMarcParser.latest_transaction self = Ok PNone) as Hlt.
    { unfold VuFindMarcParser.latest_transaction.
      rewrite marc_fields_eq, Hfr, Hfields. simpl.
      by apply scan_no_hit. }
    assert (VuFindMarcParser.latest_transaction_datetime self = Ok PNone)
      as Hltd.
    { unfold VuFindMarcParser.latest_transaction_datetime. by rewrite Hlt. }
    repeat split; try done.
    unfold VuFindMarcParser.latest_transaction_iso. by rewrite Hltd.
  - assert (VuFindMarcParser.date_entered self = Ok PNone) as Hde.
    { unfold VuFindMarcParser.date_entered.
      rewrite marc_fields_eq, Hfr, Hfields. simpl.
      by apply scan_no_hit. }
    assert (VuFindMarcParser.date_entered_date self = Ok PNone) as Hded.
    { unfold VuFindMarcParser.date_entered_date. by rewrite Hde. }
    repeat split; try done.
    unfold VuFindMarcParser.date_entered_iso. by rewrite Hded.
Qed.

(** When the ["fields"] entry is a text, [fields] returns that text and
    the loops run over its characters; no single character contains a
    three-character tag, so every other MARC accessor returns nothing and
    none raises. *)
Theorem marc_fields_text_gives_absent (self : VuFindMarcParser.t)
    (fr : gmap string pyval) (s : string) :
  VuFindMarcParser.fullrecord self = PDict fr →
  fr !! "fields" = Some (PStr s) →
  VuFindMarcParser.fields self = Ok (PStr s)
  ∧ VuFindMarcParser.latest_transaction self = Ok PNone
  ∧ VuFindMarcParser.latest_transaction_datetime self = Ok PNone
  ∧ VuFindMarcParser.latest_transaction_iso self = Ok PNone
  ∧ VuFindMarcParser.date_entered self = Ok PNone
  ∧ VuFindMarcParser.date_entered_date self = Ok PNone
  ∧ VuFindMarcParser.date_entered_iso self = Ok PNone.
Proof.
  intros Hfr Hfields.
  assert (VuFindMarcParser.fields self = Ok (PStr s)) as Hf.
  { by rewrite marc_fields_eq, Hfr, Hfields. }
  assert (VuFindMarcParser.latest_transaction self = Ok PNone) as Hlt.
  { unfold VuFindMarcParser.latest_transaction. rewrite Hf.
    apply (scan_over_chars "005"). simpl. lia. }
  assert (VuFindMarcParser.latest_transaction_datetime self = Ok PNone)
    as Hltd.
  { unfold VuFindMarcParser.latest_transaction_datetime. by rewrite Hlt. }
  assert (VuFindMarcParser.date_entered self = Ok PNone) as Hde.
  { unfold VuFindMarcParser.date_entered. rewrite Hf.
    apply (scan_over_chars "008"). simpl. lia. }
  assert (VuFindMarcParser.date_entered_date self = Ok PNone) as Hded.
  { unfold VuFindMarcParser.date_entered_date. by rewrite Hde. }
  repeat split; try done.
  - unfold VuFindMarcParser.latest_transaction_iso. by rewrite Hltd.
  - unfold VuFindMarcParser.date_entered_iso. by rewrite Hded.
Qed.

End marc_dates.

Section marc_values.
Context `{lib : DateLib}.

(** [latest_transaction_datetime] returns nothing or a datetime, and never
    raises [ValueError]; [latest_transaction_iso] is nothing exactly when
    the datetime is, the ISO text of the datetime otherwise, and raises
    exactly what the datetime accessor raises. *)
Theorem latest_transaction_datetime_results (self : VuFindMarcParser.t) :
  (VuFindMarcParser.latest_transaction_datetime self = Ok PNone
   ∧ VuFindMarcParser.latest_transaction_iso self = Ok PNone)
  ∨ (∃ dt, VuFindMarcParser.latest_transaction_datetime self
           = Ok (PDateTime dt)
           ∧ VuFindMarcParser.latest_transaction_iso self
             = Ok (PStr (datetime_isoformat dt)))
  ∨ (∃ e, e ≠ ValueError
          ∧ VuFindMarcParser.latest_transaction_datetime self = Raise e
          ∧ VuFindMarcParser.latest_transaction_iso self = Raise e).
Proof.
  unfold VuFindMarcParser.latest_transaction_iso,
    VuFindMarcParser.latest_transaction_datetime.
  destruct (VuFindMarcParser.latest_transaction self) as [v|e] eqn:Hlt;
    simpl.
  - destruct (is_none v); simpl; [by left|].
    destruct (strptime v DT005) as [dt|[| | | |]]; simpl; eauto 8;
      right; right; eexists; (split; [|done]); discriminate.
  - right. right. exists e. split; [|done].
    rewrite (latest_transaction_raise _ _ Hlt). discriminate.
Qed.

(** What [date_entered] returns is nothing, a text of at most six
    characters, or a list of at most six elements. *)
Theorem date_entered_at_most_six (self : VuFindMarcParser.t) (v : pyval) :
  VuFindMarcParser.date_entered self = Ok v →
  v = PNone
  ∨ (∃ t, v = PStr t ∧ (String.length t ≤ 6)%nat)
  ∨ (∃ l, v = PList l ∧ (length l ≤ 6)%nat).
Proof.
  unfold VuFindMarcParser.date_entered. rewrite marc_fields_eq.
  generalize (match VuFindMarcParser.fullrecord self with
              | PDict m => default PNone (m !! "fields")
              | _ => PNone
              end).
  intros f.
  assert (∀ elements,
            VuFindMarcParser.scan "008"
              (λ field, v ← py_getitem field "008"; py_slice_to 6 v)
              elements = Ok v →
            v = PNone
            ∨ (∃ t, v = PStr t ∧ (String.length t ≤ 6)%nat)
            ∨ (∃ l, v = PList l ∧ (length l ≤ 6)%nat)) as Hscan.
  { intros elements Hs.
    destruct (scan_ok _ _ _ _ Hs) as [->|(field & _ & Hget)]; [by left|].
    right. destruct (py_getitem field "008") as [x|]; [|discriminate].
    change (py_slice_to 6 x = Ok v) in Hget. unfold py_slice_to in Hget.
    destruct x as [| | |s|l| | | |]; try discriminate;
      injection Hget as <-.
    - left. exists (str_take 6 s). split; [reflexivity|].
      rewrite str_take_length. lia.
    - right. exists (take 6 l). split; [reflexivity|].
      rewrite length_take. lia. }
  destruct f; simpl; try discriminate; try apply Hscan.
  intros [= <-]. by left.
Qed.

(** Whenever the length test of [date_entered_date] passes, the text it
    hands to [strptime] has exactly six characters and no surrounding
    whitespace; the accessor then returns the date part of the parsed
    value, nothing on [ValueError], and lets any other error through. *)
Theorem date_entered_date_parses_six (self : VuFindMarcParser.t)
    (t : string) :
  VuFindMarcParser.date_entered self = Ok (PStr t) →
  String.length (strip t) = 6%nat →
  strip t = t
  ∧ String.length t = 6%nat
  ∧ (∀ dt, strptime (PStr t) "%y%m%d" = Ok dt →
           VuFindMarcParser.date_entered_date self = Ok (PDate (dt_date dt))
           ∧ VuFindMarcParser.date_entered_iso self
             = Ok (PStr (date_isoformat (dt_date dt))))
  ∧ (strptime (PStr t) "%y%m%d" = Raise ValueError →
     VuFindMarcParser.date_entered_date self = Ok PNone
     ∧ VuFindMarcParser.date_entered_iso self = Ok PNone)
  ∧ (∀ e, e ≠ ValueError → strptime (PStr t) "%y%m%d" = Raise e →
          VuFindMarcParser.date_entered_date self = Raise e
          ∧ VuFindMarcParser.date_entered_iso self = Raise e).
Proof.
  intros Hde Hlen.
  assert (String.length t = 6%nat) as Ht.
  { destruct (date_entered_at_most_six _ _ Hde)
      as [?|[(t' & [= <-] & Hle)|(l & ? & _)]]; try discriminate.
    destruct (strip_length t) as [Hsl _]. lia. }
  assert (strip t = t) as Hst.
  { apply strip_length. lia. }
  split; [done|]. split; [done|].
  unfold VuFindMarcParser.date_entered_iso,
    VuFindMarcParser.date_entered_date.
  rewrite Hde. simpl. rewrite bool_decide_eq_true_2 by done. simpl.
  split; [|split].
  - intros dt Hparse. by rewrite Hparse.
  - intros Hparse. by rewrite Hparse.
  - intros e Hne Hparse. rewrite Hparse. by destruct e.
Qed.

(** A list under ["008"] comes back cut to six elements from
    [date_entered], and [date_entered_date] and [date_entered_iso] then
    raise [AttributeError] (a list cannot be stripped); under a value that
    cannot be sliced (nothing, a truth value, a number) all three raise
    [TypeError]. *)
Theorem date_entered_not_text (self : VuFindMarcParser.t)
    (fr m : gmap string pyval) (pre post : list pyval) (v : pyval) :
  VuFindMarcParser.fullrecord self = PDict fr →
  fr !! "fields" = Some (PList (pre ++ PDict m :: post)) →
  Forall (λ e, py_contains "008" e = Ok false) pre →
  m !! "008" = Some v →
  (∀ l, v = PList l →
        VuFindMarcParser.date_entered self = Ok (PList (take 6 l))
        ∧ VuFindMarcParser.date_entered_date self = Raise AttributeError
        ∧ VuFindMarcParser.date_entered_iso self = Raise AttributeError)
  ∧ (type v = TNoneType ∨ type v = TBool ∨ type v = TInt →
     VuFindMarcParser.date_entered self = Raise TypeError
     ∧ VuFindMarcParser.date_entered_date self = Raise TypeError
     ∧ VuFindMarcParser.date_entered_iso self = Raise TypeError).
Proof.
  intros Hfr Hfields Hpre Hv.
  pose proof (date_entered_at _ _ _ _ _ _ Hfr Hfields Hpre Hv) as Hde.
  unfold VuFindMarcParser.date_entered_iso,
    VuFindMarcParser.date_entered_date.
  rewrite Hde. split.
  - by intros l ->.
  - intros Hty. destruct v; try done;
      destruct Hty as [Hty|[Hty|Hty]]; discriminate.
Qed.

End marc_values.

Lemma marc_no_tagged_element_witness :
  let fr : gmap string pyval :=
    {[ "fields" := PList [ PDict {[ "001" := PStr "rec1" ]};
                           PDict {[ "245" := PStr "A title" ]} ] ]} in
  let self := VuFindMarcParser.mk (PDict fr) in
  VuFindMarcParser.latest_transaction self = Ok PNone
  ∧ VuFindMarcParser.latest_transaction_datetime (lib := FixedWidth.lib)
      self = Ok PNone
  ∧ VuFindMarcParser.latest_transaction_iso (lib := FixedWidth.lib) self
    = Ok PNone.
Proof.
  intros fr self.
  apply (proj1 (marc_no_tagged_element (lib := FixedWidth.lib) self fr
                  [ PDict {[ "001" := PStr "rec1" ]};
                    PDict {[ "245" := PStr "A title" ]} ]
                  eq_refl eq_refl)).
  repeat constructor.
Defined.

Lemma marc_fields_text_gives_absent_witness :
  let fr : gmap string pyval := {[ "fields" := PStr "x005y008z" ]} in
  let self := VuFindMarcParser.mk (PDict fr) in
  VuFindMarcParser.fields self = Ok (PStr "x005y008z")
  ∧ VuFindMarcParser.latest_transaction self = Ok PNone
  ∧ VuFindMarcParser.latest_transaction_datetime (lib := FixedWidth.lib)
      self = Ok PNone
  ∧ VuFindMarcParser.latest_transaction_iso (lib := FixedWidth.lib) self
    = Ok PNone
  ∧ VuFindMarcParser.date_entered (lib := FixedWidth.lib) self = Ok PNone
  ∧ VuFindMarcParser.date_entered_date (lib := FixedWidth.lib) self
    = Ok PNone
  ∧ VuFindMarcParser.date_entered_iso (lib := FixedWidth.lib) self
    = Ok PNone.
Proof.
  intros fr self.
  apply (marc_fields_text_gives_absent (lib := FixedWidth.lib) self fr
           "x005y008z" eq_refl eq_refl).
Defined.

Lemma date_entered_at_most_six_witness :
  PStr "230501" = PNone
  ∨ (∃ t, PStr "230501" = PStr t ∧ (String.length t ≤ 6)%nat)
  ∨ (∃ l, PStr "230501" = PList l ∧ (length l ≤ 6)%nat).
Proof.
  apply (date_entered_at_most_six (lib := FixedWidth.lib)
           (VuFindMarcParser.mk marc_sample)).
  vm_compute. reflexivity.
Defined.

Lemma date_entered_date_parses_six_witness :
  let self := VuFindMarcParser.mk marc_sample in
  VuFindMarcParser.date_entered_date (lib := FixedWidth.lib) self
  = Ok (PDate (mkdate 2023 5 1))
  ∧ VuFindMarcParser.date_entered_iso (lib := FixedWidth.lib) self
    = Ok (PStr "2023-05-01").
Proof.
  intros self.
  refine (proj1 (proj2 (proj2
            (date_entered_date_parses_six (lib := FixedWidth.lib) self
               "230501" _ _)))
            (mkdatetime (mkdate 2023 5 1) 0 0 0 0 None) _);
    vm_compute; reflexivity.
Defined.

Lemma date_entered_not_text_witness :
  let fr : gmap string pyval :=
    {[ "fields" := PList [ PDict {[ "008" := PList [PStr "230501"] ]} ] ]} in
  let self := VuFindMarcParser.mk (PDict fr) in
  VuFindMarcParser.date_entered (lib := FixedWidth.lib) self
  = Ok (PList (take 6 [PStr "230501"]))
  ∧ VuFindMarcParser.date_entered_date (lib := FixedWidth.lib) self
    = Raise AttributeError
  ∧ VuFindMarcParser.date_entered_iso (lib := FixedWidth.lib) self
    = Raise AttributeError.
Proof.
  intros fr self.
  refine (proj1 (date_entered_not_text (lib := FixedWidth.lib) self fr
                   {[ "008" := PList [PStr "230501"] ]} [] []
                   (PList [PStr "230501"]) eq_refl eq_refl _ eq_refl)
            [PStr "230501"] eq_refl).
  constructor.
Defined.
